(** * attendance_system: the profile handler of [app.py]

    A shallow embedding of [src/app.py]: the file-name derivation
    ([sanitize_stream], [session_filename_piece], [make_filename]) and the
    request handler [save_profile] with the record store it appends to.

    Conventions of the model.
    - A Python [str] is a [string] whose characters are the code points
      below 256; text with other code points is outside the model.
    - A JSON value reaches the handler as a [pyval].
    - The records directory is a finite map from file name to file text.
    - The clock, what [request.get_json()] does and what the block that
      opens and writes the file does are inputs of the handler. *)

From Stdlib Require Import ZArith NArith Ascii DecimalString Lia.
From stdpp Require Import gmap strings.

(** ** Python strings *)

Module PyStr.

Definition code (c : ascii) : N := N_of_ascii c.

Definition between (lo hi : N) (c : ascii) : bool :=
  ((lo <=? code c) && (code c <=? hi))%N.

(** The classes [A-Z], [a-z] and [0-9] of a regular expression. *)
Definition upper_letter : ascii → bool := between 65 90.
Definition lower_letter : ascii → bool := between 97 122.
Definition digit : ascii → bool := between 48 57.

Fixpoint filter (keep : ascii → bool) (s : string) : string :=
  match s with
  | EmptyString => EmptyString
  | String c s' => if keep c then String c (filter keep s') else filter keep s'
  end.

Fixpoint map (f : ascii → ascii) (s : string) : string :=
  match s with
  | EmptyString => EmptyString
  | String c s' => String (f c) (map f s')
  end.

Fixpoint all (p : ascii → bool) (s : string) : bool :=
  match s with
  | EmptyString => true
  | String c s' => p c && all p s'
  end.

Fixpoint any (p : ascii → bool) (s : string) : bool :=
  match s with
  | EmptyString => false
  | String c s' => p c || any p s'
  end.

Definition is_empty (s : string) : bool :=
  match s with EmptyString => true | String _ _ => false end.

(** [s.replace(old, new)] for one-character [old] and [new]. *)
Definition replace (old new : ascii) (s : string) : string :=
  map (λ c, if Ascii.eqb c old then new else c) s.

(** [re.sub('[^...]', '', s)]: every character outside the class goes. *)
Definition re_sub_outside (class : ascii → bool) (s : string) : string :=
  filter class s.

(** [s.upper()] on text of the class [A-Za-z0-9_], the only text the
    program uppercases: the letters a-z move to A-Z. *)
Definition upper_char (c : ascii) : ascii :=
  if lower_letter c then ascii_of_N (code c - 32) else c.
Definition upper (s : string) : string := map upper_char s.

(** [s.split(sep)] for a one-character separator. *)
Fixpoint split (sep : ascii) (s : string) : list string :=
  match s with
  | EmptyString => [EmptyString]
  | String c s' =>
      if Ascii.eqb c sep then EmptyString :: split sep s'
      else match split sep s' with
           | p :: ps => String c p :: ps
           | [] => [String c EmptyString]
           end
  end.

Fixpoint drop (n : nat) (s : string) : string :=
  match n, s with
  | O, _ => s
  | S n', String _ s' => drop n' s'
  | S _, EmptyString => EmptyString
  end.

Fixpoint take (n : nat) (s : string) : string :=
  match n, s with
  | S n', String c s' => String c (take n' s')
  | _, _ => EmptyString
  end.

(** [len(s)] *)
Fixpoint len (s : string) : N :=
  match s with
  | EmptyString => 0%N
  | String _ s' => N.succ (len s')
  end.

(** [c * n] for a one-character [c]. *)
Definition repeat (c : ascii) (n : N) : string := N.iter n (String c) EmptyString.

(** [s[-2:]] *)
Definition last_two (s : string) : string := drop (String.length s - 2) s.

(** [sep.join(l)] *)
Fixpoint join (sep : string) (l : list string) : string :=
  match l with
  | [] => EmptyString
  | [x] => x
  | x :: l' => x +:+ sep +:+ join sep l'
  end.

Fixpoint concat (l : list string) : string :=
  match l with
  | [] => EmptyString
  | x :: l' => x +:+ concat l'
  end.

(** [str.isdigit]: not empty, and every character a digit.  Below 256
    the digits are 0-9 and the superscripts two, three and one. *)
Definition isdigit_char (c : ascii) : bool :=
  digit c || (code c =? 178)%N || (code c =? 179)%N || (code c =? 185)%N.
Definition isdigit (s : string) : bool := negb (is_empty s) && all isdigit_char s.

(** White space as [int] strips it: tab to carriage return, the space,
    and (read as spaces in text that is not pure ASCII) NEL and NBSP. *)
Definition int_space (c : ascii) : bool :=
  between 9 13 c || (code c =? 32)%N || (code c =? 133)%N || (code c =? 160)%N.

Fixpoint lstrip (p : ascii → bool) (s : string) : string :=
  match s with
  | EmptyString => EmptyString
  | String c s' => if p c then lstrip p s' else s
  end.

Fixpoint rstrip (p : ascii → bool) (s : string) : string :=
  match s with
  | EmptyString => EmptyString
  | String c s' =>
      let r := rstrip p s' in
      if is_empty r && p c then EmptyString else String c r
  end.

(** The digits of a decimal literal: underscores only between digits. *)
Fixpoint digits_value (acc : Z) (after_digit : bool) (s : string) : option Z :=
  match s with
  | EmptyString => if after_digit then Some acc else None
  | String c s' =>
      if digit c then digits_value (10 * acc + Z.of_N (code c - 48)) true s'
      else if Ascii.eqb c "_" then
        (if after_digit then digits_value acc false s' else None)
      else None
  end.

Fixpoint count (p : ascii → bool) (s : string) : N :=
  match s with
  | EmptyString => 0
  | String c s' => ((if p c then 1 else 0) + count p s')%N
  end.

(** The interpreter's default bound on the digits of a decimal literal. *)
Definition int_max_str_digits : N := 4300.

(** [int(s)]; [None] stands for the ValueError. *)
Definition int (s : string) : option Z :=
  let t := rstrip int_space (lstrip int_space s) in
  let '(negative, body) :=
    match t with
    | String "-" b => (true, b)
    | String "+" b => (false, b)
    | _ => (false, t)
    end in
  match digits_value 0 false body with
  | Some v =>
      if (int_max_str_digits <? count digit body)%N then None
      else Some (if negative then (- v)%Z else v)
  | None => None
  end.

(** [str(z)] for an integer. *)
Definition of_Z (z : Z) : string := NilZero.string_of_int (Z.to_int z).

End PyStr.

(** ** File-name derivation *)

(** The character classes of the three regular expressions. *)
Definition word_char (c : ascii) : bool :=
  PyStr.upper_letter c || PyStr.lower_letter c || PyStr.digit c || Ascii.eqb c "_".

Definition digit_or_hyphen (c : ascii) : bool :=
  PyStr.digit c || Ascii.eqb c "-".

Definition filename_char (c : ascii) : bool :=
  word_char c || Ascii.eqb c "-" || Ascii.eqb c ".".

Definition ORDINAL : gmap string string :=
  <["1" := "1st"]> (<["2" := "2nd"]> (<["3" := "3rd"]> (<["4" := "4th"]> ∅))).

Definition sanitize_stream (stream : string) : string :=
  let s := PyStr.re_sub_outside word_char (PyStr.replace " " "_" stream) in
  if PyStr.is_empty s then "OTHER" else PyStr.upper s.

Definition session_filename_piece (session : string) : string :=
  match PyStr.split "-" session with
  | [start; end_] =>
      if PyStr.isdigit start && PyStr.isdigit end_
      then start +:+ "-" +:+ PyStr.last_two end_
      else PyStr.re_sub_outside digit_or_hyphen session
  | _ => PyStr.re_sub_outside digit_or_hyphen session
  end.

Definition make_filename (stream year session : string) : string :=
  let s := sanitize_stream stream in
  let ordinal := default (year +:+ "th") (ORDINAL !! year) in
  let sess_piece := session_filename_piece session in
  let filename := s +:+ "_" +:+ ordinal +:+ "_" +:+ sess_piece +:+ ".csv" in
  PyStr.re_sub_outside filename_char filename.

(** ** Python values, exceptions, replies *)

(** A value of the request's JSON.  A float, an array or an object enters
    the program only through its truth value and its [str] text, which is
    what [POther] carries. *)
Inductive pyval :=
| PNone
| PBool (b : bool)
| PInt (z : Z)
| PStr (s : string)
| POther (truthy : bool) (text : string).

(** What [request.get_json()] returns when it returns: an object, or
    something else, of which only the truth value matters ([None] is
    [JOther false]).  That it can raise instead is [save_profile_from_request]. *)
Inductive request_json :=
| JObject (d : gmap string pyval)
| JOther (truthy : bool).

(** The exceptions of the program; the last two are what
    [request.get_json()] can raise: an HTTP error of the framework (400 for
    a body it cannot decode, 415 for a request that does not announce
    JSON), or another exception, by its name. *)
Inductive exn :=
| AttributeError
| ValueError
| HTTPException (code : nat)
| OtherException (name : string).

Inductive result (A : Type) :=
| Ok (a : A)
| Raise (e : exn).
Arguments Ok {A} a.
Arguments Raise {A} e.

Definition bind {A B} (m : result A) (k : A → result B) : result B :=
  match m with
  | Ok a => k a
  | Raise e => Raise e
  end.

Declare Scope py_scope.
Delimit Scope py_scope with py.
Notation "x <- m ;; k" := (bind m (λ x, k))
  (at level 100, m at next level, right associativity) : py_scope.

(** The JSON body of a reply and its status code. *)
Inductive json_body :=
| ErrorJson (message : string)
| SuccessJson (file : string).

(** A reply, or an exception that leaves the handler. *)
Inductive outcome :=
| Response (body : json_body) (code : nat)
| Unhandled (e : exn).

Definition truthy (v : pyval) : bool :=
  match v with
  | PNone => false
  | PBool b => b
  | PInt z => negb (z =? 0)%Z
  | PStr s => negb (PyStr.is_empty s)
  | POther t _ => t
  end.

(** [str(v)] *)
Definition py_str (v : pyval) : string :=
  match v with
  | PNone => "None"
  | PBool true => "True"
  | PBool false => "False"
  | PInt z => PyStr.of_Z z
  | PStr s => s
  | POther _ text => text
  end.

(** [data.get(k)] *)
Definition dict_get (data : gmap string pyval) (k : string) : pyval :=
  default PNone (data !! k).

(** A [str] method called on a value: only a [str] has it. *)
Definition as_str (v : pyval) : result string :=
  match v with
  | PStr s => Ok s
  | _ => Raise AttributeError
  end.

(** [int(s)] *)
Definition py_int (s : string) : result Z :=
  match PyStr.int s with
  | Some z => Ok z
  | None => Raise ValueError
  end.

(** ** The clock *)

Record datetime := {
  dt_year : N; dt_month : N; dt_day : N;
  dt_hour : N; dt_minute : N; dt_second : N; dt_microsecond : N
}.

Definition digit_char (d : N) : ascii := ascii_of_N (48 + d).

(** [n] in [width] decimal digits, zero padded, before [rest]
    (the ["%04d"] and the like of [isoformat], for [n < 10 ^ width]). *)
Fixpoint zero_padded (width : nat) (n : N) (rest : string) : string :=
  match width with
  | O => rest
  | S w => zero_padded w (n / 10) (String (digit_char (n mod 10)) rest)
  end.

(** [dt.isoformat()]: YYYY-MM-DDTHH:MM:SS, and .ffffff unless it is zero. *)
Definition isoformat (dt : datetime) : string :=
  zero_padded 4 (dt_year dt) (String "-"
  (zero_padded 2 (dt_month dt) (String "-"
  (zero_padded 2 (dt_day dt) (String "T"
  (zero_padded 2 (dt_hour dt) (String ":"
  (zero_padded 2 (dt_minute dt) (String ":"
  (zero_padded 2 (dt_second dt)
  (if (dt_microsecond dt =? 0)%N then EmptyString
   else String "." (zero_padded 6 (dt_microsecond dt) EmptyString)))))))))))).

Definition leap_year (y : N) : bool :=
  (((y mod 4 =? 0) && negb (y mod 100 =? 0)) || (y mod 400 =? 0))%N.

Definition days_in_month (y m : N) : N :=
  match m with
  | 2 => if leap_year y then 29 else 28
  | 4 | 6 | 9 | 11 => 30
  | _ => 31
  end%N.

(** The values a [datetime] object can hold. *)
Definition valid_datetime (dt : datetime) : bool :=
  ((1 <=? dt_year dt) && (dt_year dt <=? 9999)
   && (1 <=? dt_month dt) && (dt_month dt <=? 12)
   && (1 <=? dt_day dt) && (dt_day dt <=? days_in_month (dt_year dt) (dt_month dt))
   && (dt_hour dt <? 24) && (dt_minute dt <? 60) && (dt_second dt <? 60)
   && (dt_microsecond dt <? 1000000))%N.

(** Reading a time stamp back: exactly [width] digits. *)
Fixpoint read_digits (width : nat) (acc : N) (s : string) : option (N * string) :=
  match width with
  | O => Some (acc, s)
  | S w =>
      match s with
      | String c s' =>
          if PyStr.digit c then read_digits w (10 * acc + (PyStr.code c - 48)) s'
          else None
      | EmptyString => None
      end
  end.

Definition expect (c : ascii) (s : string) : option string :=
  match s with
  | String c' s' => if Ascii.eqb c' c then Some s' else None
  | EmptyString => None
  end.

(** [datetime.fromisoformat] on the texts [isoformat] writes. *)
Definition fromisoformat (s : string) : option datetime :=
  '(y, s) ← read_digits 4 0 s; s ← expect "-" s;
  '(mo, s) ← read_digits 2 0 s; s ← expect "-" s;
  '(d, s) ← read_digits 2 0 s; s ← expect "T" s;
  '(h, s) ← read_digits 2 0 s; s ← expect ":" s;
  '(mi, s) ← read_digits 2 0 s; s ← expect ":" s;
  '(se, s) ← read_digits 2 0 s;
  '(us, s) ← match s with
             | EmptyString => Some (0%N, EmptyString)
             | String c s' =>
                 if Ascii.eqb c "." then read_digits 6 0 s' else None
             end;
  let dt := {| dt_year := y; dt_month := mo; dt_day := d; dt_hour := h;
               dt_minute := mi; dt_second := se; dt_microsecond := us |} in
  if PyStr.is_empty s && valid_datetime dt then Some dt else None.

(** ** The csv module: the writer of the default dialect *)

Definition QUOTE : ascii := "034".
Definition COMMA : ascii := ",".
Definition CR : ascii := "013".
Definition LF : ascii := "010".

(** The characters that make the writer quote a field. *)
Definition csv_special (c : ascii) : bool :=
  Ascii.eqb c COMMA || Ascii.eqb c QUOTE || Ascii.eqb c CR || Ascii.eqb c LF.

Fixpoint double_quotes (s : string) : string :=
  match s with
  | EmptyString => EmptyString
  | String c s' =>
      if Ascii.eqb c QUOTE then String QUOTE (String QUOTE (double_quotes s'))
      else String c (double_quotes s')
  end.

Definition csv_field (s : string) : string :=
  if PyStr.any csv_special s
  then String QUOTE (double_quotes s +:+ String QUOTE EmptyString)
  else s.

(** The text of a cell: [None] is empty, a [str] is itself, the rest is
    its [str]. *)
Definition csv_cell (v : pyval) : string :=
  match v with
  | PNone => EmptyString
  | PStr s => s
  | _ => py_str v
  end.

(** One record; a record of one empty field is written quoted. *)
Definition csv_record (fields : list string) : string :=
  match fields with
  | [f] => if PyStr.is_empty f then String QUOTE (String QUOTE EmptyString)
           else csv_field f
  | _ => PyStr.join (String COMMA EmptyString) (csv_field <$> fields)
  end +:+ String CR (String LF EmptyString).

(** [writer.writerow(row)] as the text it appends. *)
Definition writerow (row : list pyval) : string := csv_record (csv_cell <$> row).

(** ** The csv module: the reader of the default dialect

    The reader over the whole text of a file opened with [newline=''].
    A record ends at a carriage return or a line feed outside quotes; a
    line feed right after such a carriage return belongs to it. *)

Inductive reader_state :=
| StartRecord
| StartField
| InField
| InQuotedField
| QuoteInQuotedField
| EatLF.

Record reader := {
  records : list (list string);
  fields : list string;
  field : string;
  state : reader_state
}.

Definition reader_init : reader :=
  {| records := []; fields := []; field := EmptyString; state := StartRecord |}.

Definition add_char (c : ascii) (st : reader_state) (r : reader) : reader :=
  {| records := records r; fields := fields r;
     field := field r +:+ String c EmptyString; state := st |}.

Definition save_field (st : reader_state) (r : reader) : reader :=
  {| records := records r; fields := fields r ++ [field r];
     field := EmptyString; state := st |}.

Definition end_record (st : reader_state) (r : reader) : reader :=
  {| records := records r ++ [fields r]; fields := [];
     field := EmptyString; state := st |}.

Definition set_state (st : reader_state) (r : reader) : reader :=
  {| records := records r; fields := fields r; field := field r; state := st |}.

Definition after_newline (c : ascii) : reader_state :=
  if Ascii.eqb c CR then EatLF else StartRecord.

Definition is_newline (c : ascii) : bool := Ascii.eqb c CR || Ascii.eqb c LF.

Definition start_field (c : ascii) (r : reader) : reader :=
  if is_newline c then end_record (after_newline c) (save_field StartField r)
  else if Ascii.eqb c QUOTE then set_state InQuotedField r
  else if Ascii.eqb c COMMA then save_field StartField r
  else add_char c InField r.

Definition start_record (c : ascii) (r : reader) : reader :=
  if is_newline c then end_record (after_newline c) r
  else start_field c r.

Definition reader_step (r : reader) (c : ascii) : reader :=
  match state r with
  | StartRecord => start_record c r
  | EatLF => if Ascii.eqb c LF then set_state StartRecord r else start_record c r
  | StartField => start_field c r
  | InField =>
      if is_newline c then end_record (after_newline c) (save_field StartField r)
      else if Ascii.eqb c COMMA then save_field StartField r
      else add_char c InField r
  | InQuotedField =>
      if Ascii.eqb c QUOTE then set_state QuoteInQuotedField r
      else add_char c InQuotedField r
  | QuoteInQuotedField =>
      if Ascii.eqb c QUOTE then add_char c InQuotedField r
      else if Ascii.eqb c COMMA then save_field StartField r
      else if is_newline c then end_record (after_newline c) (save_field StartField r)
      else add_char c InField r
  end.

Fixpoint reader_run (r : reader) (s : string) : reader :=
  match s with
  | EmptyString => r
  | String c s' => reader_run (reader_step r c) s'
  end.

(** At the end of the text an unfinished record is closed. *)
Definition reader_finish (r : reader) : list (list string) :=
  match state r with
  | StartRecord | EatLF => records r
  | _ => records r ++ [fields r ++ [field r]]
  end.

(** The records of a text: the reader with no limit on the size of a
    field ([csv.field_size_limit] raised out of reach). *)
Definition csv_read (text : string) : list (list string) :=
  reader_finish (reader_run reader_init text).

(** The limit the module starts with. *)
Definition field_size_limit : N := 131072.

(** [list(csv.reader(f))] as the module is: the reader raises when a field
    grows past the limit, and every field it grows ends in a record, so it
    raises exactly when a record of the text has a field longer than the
    limit; [None] stands for that error. *)
Definition csv_reader_default (text : string) : option (list (list string)) :=
  let rows := csv_read text in
  if forallb (forallb (λ f, (PyStr.len f <=? field_size_limit)%N)) rows
  then Some rows else None.

(** ** The request handler *)

(** What the block that opens the file and writes to it does: it runs to
    its end, the open raises, or a write raises after [written] characters
    of the text reached the file, whatever the cause (the file system, or a
    text that cannot be encoded).  The text is the exception's [str]. *)
Inductive io_fault :=
| IoOk
| IoOpenFails (e : string)
| IoWriteFails (written : nat) (e : string).

Definition make_filename_call (stream : pyval) (year : string) (session : pyval)
  : result string :=
  (s <- as_str stream ;;
   sess <- as_str session ;;
   Ok (make_filename s year sess))%py.

Definition required : list string :=
  ["name"; "email"; "roll"; "birthdate"; "registration"; "stream"; "session";
   "year"; "course"].

Definition headers : list string :=
  ["timestamp"; "name"; "email"; "roll"; "birthdate"; "registration"; "stream";
   "session"; "year"; "course"].

Definition session_error : outcome :=
  Response (ErrorJson "Session end year must be after start year.") 400.

(** The body of the [try]: [Ok (Some reply)] is its [return]. *)
Definition session_check (session_val : pyval) : result (option outcome) :=
  (s <- as_str session_val ;;
   match PyStr.split "-" s with
   | [p0; p1] =>
       s0 <- py_int p0 ;;
       s1 <- py_int p1 ;;
       if (s1 <=? s0)%Z then Ok (Some session_error) else Ok None
   | _ => Ok None
   end)%py.

Definition make_row (now : datetime) (data : gmap string pyval) : list pyval :=
  PStr (isoformat now) :: (dict_get data <$> required).

(** The [with open(path, mode="a") ...] block and the reply after it. *)
Definition append_row (io : io_fault) (fs : gmap string string)
    (filename : string) (row : list pyval) : outcome * gmap string string :=
  let write_header := negb (bool_decide (is_Some (fs !! filename))) in
  let old := default EmptyString (fs !! filename) in
  let text :=
    (if write_header then writerow (PStr <$> headers) else EmptyString)
    +:+ writerow row in
  match io with
  | IoOk => (Response (SuccessJson filename) 200, <[filename := old +:+ text]> fs)
  | IoOpenFails e => (Response (ErrorJson ("Could not write CSV: " +:+ e)) 500, fs)
  | IoWriteFails written e =>
      (Response (ErrorJson ("Could not write CSV: " +:+ e)) 500,
       <[filename := old +:+ PyStr.take written text]> fs)
  end.

(** [[k for k in required if not data.get(k)]] *)
Definition missing_fields (data : gmap string pyval) : list string :=
  List.filter (λ k, negb (truthy (dict_get data k))) required.

Definition save_profile (now : datetime) (io : io_fault)
    (fs : gmap string string) (body : request_json)
  : outcome * gmap string string :=
  match body with
  | JOther true => (Unhandled AttributeError, fs)
  | _ =>
      let data := match body with JObject d => d | JOther _ => ∅ end in
      match missing_fields data with
      | _ :: _ =>
          (Response
             (ErrorJson ("Missing fields: " +:+ PyStr.join ", " (missing_fields data)))
             400, fs)
      | [] =>
          let session_val := dict_get data "session" in
          match session_check session_val with
          | Ok (Some reply) => (reply, fs)
          | Ok None | Raise _ =>
              match make_filename_call (dict_get data "stream")
                      (py_str (dict_get data "year")) session_val with
              | Raise e => (Unhandled e, fs)
              | Ok filename => append_row io fs filename (make_row now data)
              end
          end
      end
  end.

(** The handler with its first statement: [request.get_json()] returns the
    decoded body, or raises, and what it raises leaves the handler. *)
Definition save_profile_from_request (now : datetime) (io : io_fault)
    (fs : gmap string string) (got : result request_json)
  : outcome * gmap string string :=
  match got with
  | Ok body => save_profile now io fs body
  | Raise e => (Unhandled e, fs)
  end.

(** A run of the server: the requests one after the other. *)
Record request := {
  req_now : datetime;
  req_io : io_fault;
  req_body : request_json
}.

Fixpoint serve (fs : gmap string string) (reqs : list request)
  : list outcome * gmap string string :=
  match reqs with
  | [] => ([], fs)
  | r :: reqs' =>
      let '(o, fs1) := save_profile (req_now r) (req_io r) fs (req_body r) in
      let '(os, fs2) := serve fs1 reqs' in
      (o :: os, fs2)
  end.

(** ** The words of the spec *)

(** The session text split at the hyphen into exactly two parts that both
    parse as integers. *)
Definition session_years (session : string) : option (Z * Z) :=
  match PyStr.split "-" session with
  | [p0; p1] =>
      match PyStr.int p0, PyStr.int p1 with
      | Some s0, Some s1 => Some (s0, s1)
      | _, _ => None
      end
  | _ => None
  end.

(** The payload holds these texts, none of them empty, under the nine
    required keys, in the order of the columns. *)
Definition holds_text (data : gmap string pyval) (values : list string) : Prop :=
  Forall2 (λ k v, data !! k = Some (PStr v) ∧ v ≠ "") required values.

Definition is_success (o : outcome) : bool :=
  match o with
  | Response (SuccessJson _) 200 => true
  | _ => false
  end.

(** The file a request's fields derive, and the record it submits. *)
Definition target_file (body : request_json) : option string :=
  match body with
  | JObject data =>
      match make_filename_call (dict_get data "stream")
              (py_str (dict_get data "year")) (dict_get data "session") with
      | Ok f => Some f
      | Raise _ => None
      end
  | JOther _ => None
  end.

Definition submitted_record (now : datetime) (body : request_json) : list string :=
  match body with
  | JObject data => csv_cell <$> make_row now data
  | JOther _ => []
  end.

(** The records of the requests that derive the file [f], in their order. *)
Fixpoint records_for (f : string) (reqs : list request) : list (list string) :=
  match reqs with
  | [] => []
  | r :: reqs' =>
      if decide (target_file (req_body r) = Some f)
      then submitted_record (req_now r) (req_body r) :: records_for f reqs'
      else records_for f reqs'
  end.

(** The text of a file that holds the header and then these records. *)
Definition file_text (rows : list (list string)) : string :=
  csv_record headers +:+ PyStr.concat (csv_record <$> rows).

(** A submission and a time of the clock to run the handler on. *)
Definition sample_time : datetime :=
  {| dt_year := 2024; dt_month := 2; dt_day := 29; dt_hour := 9;
     dt_minute := 5; dt_second := 0; dt_microsecond := 1234 |}.

Definition sample_values : list string :=
  ["Ann, B"; "ann@example.org"; "12"; "2000-01-01"; "R-1"; "B.Tech CS";
   "2023-2026"; "2"; "BSc"].

Definition sample_data : gmap string pyval :=
  list_to_map (zip required (PStr <$> sample_values)).

(** ** The spec's wording of the stream component *)

(** The letters a-z raised, every other character as it is: the small
    letter is looked up in the alphabet and answered by the capital letter
    at its place. *)
Definition spec_raise (c : ascii) : ascii :=
  match
    List.find (λ pair, Ascii.eqb (fst pair) c)
      (List.combine
         (String.list_ascii_of_string "abcdefghijklmnopqrstuvwxyz")
         (String.list_ascii_of_string "ABCDEFGHIJKLMNOPQRSTUVWXYZ"))
  with
  | Some (_, capital) => capital
  | None => c
  end.

(** The ASCII letters, the digits and the underscore, one by one. *)
Definition spec_letters_digits_underscore : list ascii :=
  String.list_ascii_of_string
    "ABCDEFGHIJKLMNOPQRSTUVWXYZabcdefghijklmnopqrstuvwxyz0123456789_".

(** Replace spaces by underscores, strip what is not a letter, a digit or an
    underscore, uppercase; the literal OTHER when nothing is left.  Written
    over the list of the characters, with the list functions of the
    library. *)
Definition spec_stream_component (stream : string) : string :=
  let replaced :=
    List.map (λ c, if Ascii.eqb c " " then "_"%char else c)
      (String.list_ascii_of_string stream) in
  let stripped :=
    List.filter (λ c, existsb (Ascii.eqb c) spec_letters_digits_underscore)
      replaced in
  match List.map spec_raise stripped with
  | [] => "OTHER"
  | c :: rest => String.string_of_list_ascii (c :: rest)
  end.

(** ** The spec's wording of the session component *)



(** What the record store holds under a name after these records went to
    it: nothing before the first, the header and the records after. *)
Definition file_state (rows : list (list string)) : option string :=
  match rows with
  | [] => None
  | _ :: _ => Some (file_text rows)
  end.

Definition sample_file : string := "BTECH_CS_2nd_2023-26.csv".

Definition sample_request : request :=
  {| req_now := sample_time; req_io := IoOk; req_body := JObject sample_data |}.

Definition sample_record : list string := isoformat sample_time :: sample_values.

(** A name one character longer than the reader's limit, and the sample
    submission under that name. *)
Definition long_name : string := PyStr.repeat "a" 131073.

Definition long_data : gmap string pyval := <["name" := PStr long_name]> sample_data.

(** ** Character classes of the derived names *)

(** The characters of a stream component: A-Z, 0-9 and the underscore. *)
Definition stream_char (c : ascii) : bool :=
  PyStr.upper_letter c || PyStr.digit c || Ascii.eqb c "_".

(** A character the stream sanitization drops: no letter, digit or
    underscore, and no space. *)
Definition dropped_char (c : ascii) : bool :=
  negb (word_char c) && negb (Ascii.eqb c " ").

Definition is_text (v : pyval) : bool :=
  match v with
  | PStr _ => true
  | _ => false
  end.

(** ** Invariants *)

(** Between records and between fields the reader holds no pending text. *)
Definition reader_tidy (r : reader) : Prop :=
  match state r with
  | StartRecord | EatLF => fields r = [] ∧ field r = ""
  | StartField => field r = ""
  | InField | InQuotedField | QuoteInQuotedField => True
  end.

(** * Facts about strings *)

Section string_facts.
Implicit Types (s t u : string) (c : ascii) (p : ascii → bool).

Lemma app_nil_l s : "" +:+ s = s.
Proof. reflexivity. Qed.

Lemma app_cons c s t : String c s +:+ t = String c (s +:+ t).
Proof. reflexivity. Qed.

Lemma app_nil_r s : s +:+ "" = s.
Proof. induction s as [|c s IH]; [done|]. by rewrite app_cons, IH. Qed.

Lemma app_assoc s t u : (s +:+ t) +:+ u = s +:+ (t +:+ u).
Proof. induction s as [|c s IH]; [done|]. by rewrite !app_cons, IH. Qed.

Lemma filter_app p s t :
  PyStr.filter p (s +:+ t) = PyStr.filter p s +:+ PyStr.filter p t.
Proof.
  induction s as [|c s IH]; [done|].
  rewrite app_cons. simpl. destruct (p c); by rewrite ?app_cons, IH.
Qed.

Lemma all_app p s t :
  PyStr.all p (s +:+ t) = PyStr.all p s && PyStr.all p t.
Proof.
  induction s as [|c s IH]; [done|].
  rewrite app_cons. simpl. by rewrite IH, andb_assoc.
Qed.

Lemma all_filter p s : PyStr.all p (PyStr.filter p s) = true.
Proof.
  induction s as [|c s IH]; [done|].
  simpl. destruct (p c) eqn:E; [|done]. simpl. by rewrite E.
Qed.

Lemma filter_all p s : PyStr.all p s = true → PyStr.filter p s = s.
Proof.
  induction s as [|c s IH]; [done|].
  simpl. intros [-> ?]%andb_true_iff. f_equal. auto.
Qed.

Lemma all_impl p q s :
  (∀ c, p c = true → q c = true) → PyStr.all p s = true → PyStr.all q s = true.
Proof.
  intros Hpq. induction s as [|c s IH]; [done|].
  simpl. intros [? ?]%andb_true_iff. apply andb_true_iff. auto.
Qed.

Lemma all_map p (f : ascii → ascii) s :
  (∀ c, p c = true → p (f c) = true) →
  PyStr.all p s = true → PyStr.all p (PyStr.map f s) = true.
Proof.
  intros Hf. induction s as [|c s IH]; [done|].
  simpl. intros [? ?]%andb_true_iff. apply andb_true_iff. auto.
Qed.

Lemma map_is_empty (f : ascii → ascii) s :
  PyStr.is_empty (PyStr.map f s) = PyStr.is_empty s.
Proof. by destruct s. Qed.

Lemma is_empty_true s : PyStr.is_empty s = true ↔ s = "".
Proof. by destruct s. Qed.



Lemma split_without c s :
  PyStr.all (λ c', negb (Ascii.eqb c' c)) s = true → PyStr.split c s = [s].
Proof.
  induction s as [|c' s IH]; [done|].
  simpl. intros [Hc Hs]%andb_true_iff.
  apply negb_true_iff in Hc. rewrite Hc, (IH Hs). done.
Qed.

Lemma split_app c s t :
  PyStr.all (λ c', negb (Ascii.eqb c' c)) s = true →
  PyStr.split c (s +:+ String c t) = s :: PyStr.split c t.
Proof.
  induction s as [|c' s IH].
  - intros _. rewrite app_nil_l. simpl. by rewrite Ascii.eqb_refl.
  - simpl. intros [Hc Hs]%andb_true_iff.
    apply negb_true_iff in Hc. by rewrite Hc, (IH Hs).
Qed.

End string_facts.

(** * Facts about the character classes *)

Lemma upper_char_word c : word_char c = true → word_char (PyStr.upper_char c) = true.
Proof. destruct c as [[] [] [] [] [] [] [] []]; vm_compute; congruence. Qed.

Lemma word_char_filename c : word_char c = true → filename_char c = true.
Proof. unfold filename_char. by intros ->. Qed.

Lemma isdigit_char_not_hyphen c :
  PyStr.isdigit_char c = true → negb (Ascii.eqb c "-") = true.
Proof. destruct c as [[] [] [] [] [] [] [] []]; vm_compute; congruence. Qed.

Lemma filename_char_spelled c :
  filename_char c = true ↔
    (65 ≤ PyStr.code c ≤ 90)%N ∨ (97 ≤ PyStr.code c ≤ 122)%N
    ∨ (48 ≤ PyStr.code c ≤ 57)%N ∨ c = "_"%char ∨ c = "-"%char ∨ c = "."%char.
Proof.
  unfold filename_char, word_char, PyStr.upper_letter, PyStr.lower_letter,
    PyStr.digit, PyStr.between.
  rewrite !orb_true_iff, !andb_true_iff, !N.leb_le, !Ascii.eqb_eq. tauto.
Qed.

(** * Facts about the file-name derivation *)

Lemma sanitize_stream_word stream :
  PyStr.all word_char (sanitize_stream stream) = true.
Proof.
  unfold sanitize_stream, PyStr.re_sub_outside.
  destruct (PyStr.is_empty _); [done|].
  apply all_map; [apply upper_char_word | apply all_filter].
Qed.

Lemma sanitize_stream_not_empty stream : sanitize_stream stream ≠ "".
Proof.
  unfold sanitize_stream.
  destruct (PyStr.is_empty _) eqn:E; [done|].
  intros ?%is_empty_true. unfold PyStr.upper in *.
  rewrite map_is_empty in *. congruence.
Qed.

(** The safety pass leaves the stream component, the separators and the
    extension as they are. *)
Lemma make_filename_parts stream year session :
  make_filename stream year session =
    sanitize_stream stream +:+ "_"
    +:+ PyStr.filter filename_char (default (year +:+ "th") (ORDINAL !! year))
    +:+ "_" +:+ PyStr.filter filename_char (session_filename_piece session)
    +:+ ".csv".
Proof.
  unfold make_filename, PyStr.re_sub_outside.
  rewrite !filter_app.
  rewrite (filter_all filename_char (sanitize_stream stream)); [done|].
  eapply all_impl; [apply word_char_filename | apply sanitize_stream_word].
Qed.

Lemma all_get p s :
  PyStr.all p s = true ↔ ∀ i c, String.get i s = Some c → p c = true.
Proof.
  induction s as [|c' s IH]; simpl.
  - split; [by intros _ [|?] ?|done].
  - rewrite andb_true_iff, IH. split.
    + intros [Hc Hs] [|i] c; [by intros [= <-]|apply Hs].
    + intros H. split; [by apply (H 0%nat)|]. intros i c. apply (H (S i)).
Qed.

Lemma isdigit_no_hyphen s :
  PyStr.isdigit s = true →
  PyStr.all (λ c, negb (Ascii.eqb c "-")) s = true.
Proof.
  unfold PyStr.isdigit. intros [_ H]%andb_true_iff.
  eapply all_impl; [apply isdigit_char_not_hyphen | exact H].
Qed.

Lemma split_two_numeric a b :
  PyStr.isdigit a = true → PyStr.isdigit b = true →
  PyStr.split "-" (a +:+ "-" +:+ b) = [a; b].
Proof.
  intros Ha Hb.
  change (a +:+ "-" +:+ b) with (a +:+ String "-" b).
  rewrite split_app by by apply isdigit_no_hyphen.
  by rewrite split_without by by apply isdigit_no_hyphen.
Qed.

(** C1 (amended): on the spec's worked inputs the space becomes an underscore
    and stays: the stream component of ["Comp Sci!"] is COMP_SCI, and
    ["B.Tech CS"], year 2, session 2023-2026 gives the file name
    BTECH_CS_2nd_2023-26.csv. *)
Theorem worked_examples :
  sanitize_stream "Comp Sci!" = "COMP_SCI"
  ∧ make_filename "Comp Sci!" "1" "2023-2026" = "COMP_SCI_1st_2023-26.csv"
  ∧ make_filename "B.Tech CS" "2" "2023-2026" = "BTECH_CS_2nd_2023-26.csv".
Proof. by vm_compute. Qed.

(** C1 as the spec words it fails on both inputs: the stream component is not
    COMPSCI and the file name is not BTECHCS_2nd_2023-26.csv. *)
Lemma worked_examples_as_worded_fail :
  sanitize_stream "Comp Sci!" ≠ "COMPSCI"
  ∧ make_filename "Comp Sci!" "1" "2023-2026" ≠ "COMPSCI_1st_2023-26.csv"
  ∧ make_filename "B.Tech CS" "2" "2023-2026" ≠ "BTECHCS_2nd_2023-26.csv".
Proof. by vm_compute. Qed.



(** The string functions of the model are the list functions of the
    library on the list of the characters. *)
Lemma filter_as_list p s :
  PyStr.filter p s =
    String.string_of_list_ascii (List.filter p (String.list_ascii_of_string s)).
Proof.
  induction s as [|c s IH]; [done|].
  simpl. destruct (p c); simpl; by rewrite IH.
Qed.

Lemma map_as_list (f : ascii → ascii) s :
  PyStr.map f s =
    String.string_of_list_ascii (List.map f (String.list_ascii_of_string s)).
Proof. induction s as [|c s IH]; [done|]. simpl. by rewrite IH. Qed.








(** C6: for every stream, year and session text [make_filename] returns a
    text that is not empty and whose every character is an ASCII letter, a
    digit, an underscore, a hyphen or a period; so it holds no path
    separator. *)
Theorem make_filename_safe stream year session :
  make_filename stream year session ≠ ""
  ∧ ∀ i c, String.get i (make_filename stream year session) = Some c →
      ((65 ≤ PyStr.code c ≤ 90)%N ∨ (97 ≤ PyStr.code c ≤ 122)%N
       ∨ (48 ≤ PyStr.code c ≤ 57)%N ∨ c = "_"%char ∨ c = "-"%char ∨ c = "."%char)
      ∧ c ≠ "/"%char ∧ c ≠ "\"%char.
Proof.
  split.
  - rewrite make_filename_parts.
    pose proof (sanitize_stream_not_empty stream).
    by destruct (sanitize_stream stream).
  - intros i c Hget.
    assert (filename_char c = true) as Hc.
    { revert i c Hget. apply all_get. unfold make_filename. apply all_filter. }
    split; [by apply filename_char_spelled|].
    split; intros ->; vm_compute in Hc; congruence.
Qed.

Lemma word_char_listed c :
  word_char c = existsb (Ascii.eqb c) spec_letters_digits_underscore.
Proof. destruct c as [[] [] [] [] [] [] [] []]; vm_compute; reflexivity. Qed.

Lemma upper_char_raise c : PyStr.upper_char c = spec_raise c.
Proof. destruct c as [[] [] [] [] [] [] [] []]; vm_compute; reflexivity. Qed.

Lemma sanitize_stream_as_spec stream :
  sanitize_stream stream = spec_stream_component stream.
Proof.
  unfold sanitize_stream, spec_stream_component, PyStr.re_sub_outside,
    PyStr.replace, PyStr.upper.
  rewrite map_as_list, filter_as_list, String.list_ascii_of_string_of_list_ascii.
  rewrite (filter_ext word_char
             (λ c, existsb (Ascii.eqb c) spec_letters_digits_underscore))
    by apply word_char_listed.
  destruct (List.filter _ _) as [|c kept]; [done|].
  simpl PyStr.is_empty. cbv iota.
  rewrite map_as_list, String.list_ascii_of_string_of_list_ascii.
  rewrite (List.map_ext PyStr.upper_char spec_raise) by apply upper_char_raise.
  done.
Qed.

(** C7: the stream component of the derived file name is the stream with
    spaces replaced by underscores, then stripped of what is not an ASCII
    letter, a digit or an underscore, then uppercased, and the literal OTHER
    when that is empty; the stream ["!!!"] gives OTHER, and ["b.tech cs"]
    gives BTECH_CS. *)
Theorem stream_component_rule stream year session :
  sanitize_stream stream = spec_stream_component stream
  ∧ make_filename stream year session
    = spec_stream_component stream +:+ "_"
      +:+ PyStr.filter filename_char (default (year +:+ "th") (ORDINAL !! year))
      +:+ "_" +:+ PyStr.filter filename_char (session_filename_piece session)
      +:+ ".csv"
  ∧ sanitize_stream "!!!" = "OTHER"
  ∧ make_filename "!!!" "2" "2023-2026" = "OTHER_2nd_2023-26.csv"
  ∧ sanitize_stream "b.tech cs" = "BTECH_CS"
  ∧ make_filename "b.tech cs" "2" "2023-2026" = "BTECH_CS_2nd_2023-26.csv"
  ∧ sanitize_stream "a_b  c-d/e9" = "A_B__CDE9"
  ∧ sanitize_stream " " = "_".
Proof.
  split; [apply sanitize_stream_as_spec|]. split; [|by vm_compute].
  rewrite <- sanitize_stream_as_spec. apply make_filename_parts.
Qed.

(** C10: the derivation is not injective on the raw stream: the streams CS
    and C.S. give the same file name with every year and session. *)
Theorem make_filename_not_injective :
  ∃ stream1 stream2, stream1 ≠ stream2
    ∧ ∀ year session,
        make_filename stream1 year session = make_filename stream2 year session.
Proof.
  exists "CS", "C.S.". split; [done|].
  intros year session. by rewrite !make_filename_parts.
Qed.

(** * Facts about the handler *)

Lemma missing_fields_spec data k :
  k ∈ missing_fields data ↔ k ∈ required ∧ truthy (dict_get data k) = false.
Proof.
  unfold missing_fields.
  by rewrite !list_elem_of_In, filter_In, negb_true_iff.
Qed.

Lemma save_profile_missing now io fs data :
  missing_fields data ≠ [] →
  save_profile now io fs (JObject data) =
    (Response
       (ErrorJson ("Missing fields: " +:+ PyStr.join ", " (missing_fields data)))
       400, fs).
Proof. unfold save_profile. by destruct (missing_fields data). Qed.

Lemma save_profile_complete now io fs data :
  missing_fields data = [] →
  save_profile now io fs (JObject data) =
    match session_check (dict_get data "session") with
    | Ok (Some reply) => (reply, fs)
    | Ok None | Raise _ =>
        match make_filename_call (dict_get data "stream")
                (py_str (dict_get data "year")) (dict_get data "session") with
        | Raise e => (Unhandled e, fs)
        | Ok filename => append_row io fs filename (make_row now data)
        end
    end.
Proof. unfold save_profile. by intros ->. Qed.

(** A body that is no object and is falsy is the empty payload. *)
Lemma save_profile_no_body now io fs :
  save_profile now io fs (JOther false) = save_profile now io fs (JObject ∅)
  ∧ save_profile now io fs (JObject ∅) =
      (Response
         (ErrorJson
            "Missing fields: name, email, roll, birthdate, registration, stream, session, year, course")
         400, fs).
Proof. split; reflexivity. Qed.

Lemma dict_get_lookup (data : gmap string pyval) k v :
  data !! k = Some v → dict_get data k = v.
Proof. unfold dict_get. by intros ->. Qed.

Lemma session_check_violation s s0 s1 :
  session_years s = Some (s0, s1) → (s1 ≤ s0)%Z →
  session_check (PStr s) = Ok (Some session_error).
Proof.
  unfold session_check, session_years, py_int. simpl.
  destruct (PyStr.split "-" s) as [|p0 [|p1 [|? ?]]]; try done.
  destruct (PyStr.int p0); simpl; [|done].
  destruct (PyStr.int p1); simpl; [|done].
  intros [= -> ->] Hle%Z.leb_le. by rewrite Hle.
Qed.

Lemma session_check_in_order s s0 s1 :
  session_years s = Some (s0, s1) → (s0 < s1)%Z →
  session_check (PStr s) = Ok None.
Proof.
  unfold session_check, session_years, py_int. simpl.
  destruct (PyStr.split "-" s) as [|p0 [|p1 [|? ?]]]; try done.
  destruct (PyStr.int p0); simpl; [|done].
  destruct (PyStr.int p1); simpl; [|done].
  intros [= -> ->] Hlt. by rewrite (proj2 (Z.leb_gt s1 s0) Hlt).
Qed.


(** Past both checks the handler derives the name and appends the row. *)
Lemma save_profile_appends now io fs data stream session :
  missing_fields data = [] →
  data !! "stream" = Some (PStr stream) →
  data !! "session" = Some (PStr session) →
  session_check (PStr session) ≠ Ok (Some session_error) →
  save_profile now io fs (JObject data) =
    append_row io fs
      (make_filename stream (py_str (dict_get data "year")) session)
      (make_row now data).
Proof.
  intros Hfull Hstream Hsession Hcheck.
  rewrite (save_profile_complete _ _ _ _ Hfull).
  rewrite (dict_get_lookup _ _ _ Hsession), (dict_get_lookup _ _ _ Hstream).
  assert (session_check (PStr session) = Ok None
          ∨ ∃ e, session_check (PStr session) = Raise e) as [-> | [e ->]]; [|done..].
  revert Hcheck. unfold session_check, py_int. simpl.
  destruct (PyStr.split "-" session) as [|p0 [|p1 [|? ?]]]; auto.
  destruct (PyStr.int p0); simpl; [|eauto].
  destruct (PyStr.int p1); simpl; [|eauto].
  destruct (_ <=? _)%Z; [done|auto].
Qed.

(** C3: when one of the nine required fields is absent or holds the empty
    text, the reply is the 400 error whose message lists the missing fields,
    that field among them, and the record store is as it was. *)
Theorem missing_field_rejected now io fs data k :
  k ∈ required →
  data !! k = None ∨ data !! k = Some (PStr "") →
  k ∈ missing_fields data
  ∧ (∀ k', k' ∈ missing_fields data ↔
            k' ∈ required ∧ truthy (dict_get data k') = false)
  ∧ save_profile now io fs (JObject data) =
      (Response
         (ErrorJson ("Missing fields: " +:+ PyStr.join ", " (missing_fields data)))
         400, fs).
Proof.
  intros Hk Hgone.
  assert (k ∈ missing_fields data) as Hin.
  { apply missing_fields_spec. split; [done|].
    unfold dict_get. by destruct Hgone as [-> | ->]. }
  split; [done|]. split; [apply missing_fields_spec|].
  apply save_profile_missing. intros Hnil. rewrite Hnil in Hin.
  by apply not_elem_of_nil in Hin.
Qed.

Lemma missing_field_rejected_witness :
  "email" ∈ missing_fields (delete "email" sample_data)
  ∧ save_profile sample_time IoOk ∅ (JObject (delete "email" sample_data)) =
      (Response (ErrorJson "Missing fields: email") 400, ∅).
Proof.
  destruct (missing_field_rejected sample_time IoOk ∅
              (delete "email" sample_data) "email") as (Hin & _ & Hreply).
  - unfold required. set_solver.
  - left. reflexivity.
  - split; [exact Hin | exact Hreply].
Defined.

(** C9: a required field that is present with the number 0, the boolean
    false or null counts as missing: the reply is the 400 missing-fields
    error, the same reply as when the field is absent. *)
Theorem falsy_value_counts_as_missing now io fs data k v :
  k ∈ required →
  data !! k = Some v →
  v = PInt 0 ∨ v = PBool false ∨ v = PNone →
  k ∈ missing_fields data
  ∧ save_profile now io fs (JObject data) =
      (Response
         (ErrorJson ("Missing fields: " +:+ PyStr.join ", " (missing_fields data)))
         400, fs)
  ∧ save_profile now io fs (JObject data) =
      save_profile now io fs (JObject (delete k data)).
Proof.
  intros Hk Hv Hfalsy.
  assert (truthy v = false) as Hvf by (by destruct Hfalsy as [-> | [-> | ->]]).
  assert (k ∈ missing_fields data) as Hin.
  { apply missing_fields_spec. split; [done|]. unfold dict_get. by rewrite Hv. }
  assert (missing_fields (delete k data) = missing_fields data) as Hsame.
  { unfold missing_fields. apply filter_ext. intros k'. f_equal.
    unfold dict_get. rewrite lookup_delete. case_decide; [subst k'|done].
    rewrite Hv. symmetry. exact Hvf. }
  assert (missing_fields data ≠ []) as Hne.
  { intros Hnil. rewrite Hnil in Hin. by apply not_elem_of_nil in Hin. }
  split; [done|]. split; [by apply save_profile_missing|].
  rewrite !save_profile_missing by by rewrite ?Hsame.
  by rewrite Hsame.
Qed.

Lemma falsy_value_counts_as_missing_witness :
  save_profile sample_time IoOk ∅ (JObject (<["roll" := PInt 0]> sample_data)) =
    (Response (ErrorJson "Missing fields: roll") 400, ∅)
  ∧ save_profile sample_time IoOk ∅ (JObject (<["roll" := PInt 0]> sample_data)) =
      save_profile sample_time IoOk ∅
        (JObject (delete "roll" (<["roll" := PInt 0]> sample_data))).
Proof.
  destruct (falsy_value_counts_as_missing sample_time IoOk ∅
              (<["roll" := PInt 0]> sample_data) "roll" (PInt 0))
    as (_ & Hreply & Hsame).
  - unfold required. set_solver.
  - reflexivity.
  - left. reflexivity.
  - split; [exact Hreply | exact Hsame].
Defined.



(** * Facts about time stamps *)

Lemma digit_char_digit m :
  (m < 10)%N →
  PyStr.digit (digit_char m) = true ∧ (PyStr.code (digit_char m) - 48 = m)%N.
Proof.
  intros Hm. unfold PyStr.digit, PyStr.between, PyStr.code, digit_char.
  rewrite N_ascii_embedding by lia. split; [|lia].
  apply andb_true_iff; split; apply N.leb_le; lia.
Qed.

(** Reading one digit more is reading the last digit after the others. *)
Lemma read_digits_last w acc s :
  read_digits (S w) acc s =
    '(v, s') ← read_digits w acc s; read_digits 1 v s'.
Proof.
  revert acc s. induction w as [|w IH]; intros acc s; [done|].
  change (read_digits (S (S w)) acc s) with
    (match s with
     | String c s' =>
         if PyStr.digit c
         then read_digits (S w) (10 * acc + (PyStr.code c - 48)) s'
         else None
     | EmptyString => None
     end).
  change (read_digits (S w) acc s) with
    (match s with
     | String c s' =>
         if PyStr.digit c then read_digits w (10 * acc + (PyStr.code c - 48)) s'
         else None
     | EmptyString => None
     end).
  destruct s as [|c s]; [done|]. destruct (PyStr.digit c); [|done]. apply IH.
Qed.

Lemma read_zero_padded w n acc rest :
  (n < 10 ^ N.of_nat w)%N →
  read_digits w acc (zero_padded w n rest) =
    Some ((acc * 10 ^ N.of_nat w + n)%N, rest).
Proof.
  revert n acc rest. induction w as [|w IH]; intros n acc rest Hn.
  - simpl in *. do 2 f_equal. lia.
  - rewrite Nat2N.inj_succ, N.pow_succ_r' in *.
    rewrite read_digits_last. cbn [zero_padded].
    rewrite IH by (apply N.Div0.div_lt_upper_bound; lia).
    destruct (digit_char_digit (n mod 10)) as [Hd Hv];
      [apply N.mod_lt; lia|].
    cbn [mbind option_bind read_digits]. rewrite Hd, Hv.
    do 2 f_equal. pose proof (N.div_mod n 10). lia.
Qed.

(** The first character of a time stamp is a digit. *)
Lemma zero_padded_head w n rest :
  ∃ m tail, (m < 10)%N ∧ zero_padded (S w) n rest = String (digit_char m) tail.
Proof.
  revert n rest. induction w as [|w IH]; intros n rest.
  - exists (n mod 10)%N, rest. split; [apply N.mod_lt; lia | done].
  - apply (IH (n / 10)%N).
Qed.

Lemma isoformat_not_timestamp now : isoformat now ≠ "timestamp".
Proof.
  unfold isoformat.
  destruct (zero_padded_head 3 (dt_year now)
              (String "-" (zero_padded 2 (dt_month now) (String "-"
                 (zero_padded 2 (dt_day now) (String "T"
                 (zero_padded 2 (dt_hour now) (String ":"
                 (zero_padded 2 (dt_minute now) (String ":"
                 (zero_padded 2 (dt_second now)
                 (if (dt_microsecond now =? 0)%N then EmptyString
                  else String "." (zero_padded 6 (dt_microsecond now)
                                     EmptyString)))))))))))))
    as (m & tail & Hm & ->).
  intros [= Hc _].
  destruct (digit_char_digit m Hm) as [Hd _]. rewrite Hc in Hd. done.
Qed.

Lemma fromisoformat_isoformat now :
  valid_datetime now = true → fromisoformat (isoformat now) = Some now.
Proof.
  intros Hvalid. pose proof Hvalid as Hv. unfold valid_datetime in Hv.
  repeat (apply andb_true_iff in Hv as [Hv ?]).
  repeat match goal with
         | H : (_ <=? _)%N = true |- _ => apply N.leb_le in H
         | H : (_ <? _)%N = true |- _ => apply N.ltb_lt in H
         end.
  assert (dt_day now <= 31)%N as Hday.
  { etrans; [eassumption|]. unfold days_in_month.
    repeat case_match; lia. }
  unfold fromisoformat, isoformat.
  rewrite read_zero_padded by (simpl; lia). cbn [mbind option_bind expect Ascii.eqb Bool.eqb].
  rewrite read_zero_padded by (simpl; lia). cbn [mbind option_bind expect Ascii.eqb Bool.eqb].
  rewrite read_zero_padded by (simpl; lia). cbn [mbind option_bind expect Ascii.eqb Bool.eqb].
  rewrite read_zero_padded by (simpl; lia). cbn [mbind option_bind expect Ascii.eqb Bool.eqb].
  rewrite read_zero_padded by (simpl; lia). cbn [mbind option_bind expect Ascii.eqb Bool.eqb].
  rewrite read_zero_padded by (simpl; lia). cbn [mbind option_bind].
  rewrite !N.mul_0_l, !N.add_0_l.
  destruct (dt_microsecond now =? 0)%N eqn:Hus.
  - apply N.eqb_eq in Hus. cbn [mbind option_bind PyStr.is_empty andb].
    destruct now; simpl in *; subst. by rewrite Hvalid.
  - cbn [Ascii.eqb Bool.eqb].
    rewrite read_zero_padded by (simpl; lia). cbn [mbind option_bind PyStr.is_empty andb].
    rewrite !N.mul_0_l, !N.add_0_l.
    destruct now; simpl in *. by rewrite Hvalid.
Qed.

(** * Facts about the csv writer and reader *)

Lemma reader_run_app r s t :
  reader_run r (s +:+ t) = reader_run (reader_run r s) t.
Proof. revert r. induction s as [|c s IH]; intros r; [done|]. apply IH. Qed.

Lemma not_special c :
  csv_special c = false →
  Ascii.eqb c COMMA = false ∧ Ascii.eqb c QUOTE = false ∧ is_newline c = false.
Proof.
  unfold csv_special, is_newline.
  destruct (Ascii.eqb c COMMA), (Ascii.eqb c QUOTE), (Ascii.eqb c CR),
    (Ascii.eqb c LF); naive_solver.
Qed.

Lemma step_plain recs fs fld st c :
  st = StartRecord ∨ st = StartField ∨ st = InField →
  csv_special c = false →
  reader_step (Build_reader recs fs fld st) c =
    Build_reader recs fs (fld +:+ String c "") InField.
Proof.
  intros Hst (Hcomma & Hquote & Hnl)%not_special.
  unfold reader_step, start_record, start_field.
  destruct Hst as [-> | [-> | ->]]; simpl; by rewrite ?Hnl, ?Hquote, ?Hcomma.
Qed.

Lemma run_unquoted recs fs fld f rest :
  PyStr.any csv_special f = false →
  reader_run (Build_reader recs fs fld InField) (f +:+ rest) =
    reader_run (Build_reader recs fs (fld +:+ f) InField) rest.
Proof.
  revert fld. induction f as [|c f IH]; intros fld Hf.
  - by rewrite app_nil_r.
  - simpl in Hf. apply orb_false_iff in Hf as [Hc Hf].
    rewrite app_cons. cbn [reader_run].
    rewrite step_plain by auto. rewrite (IH _ Hf).
    by rewrite app_assoc.
Qed.

Lemma run_quoted recs fs fld f rest :
  reader_run (Build_reader recs fs fld InQuotedField)
    (double_quotes f +:+ String QUOTE rest) =
    reader_run (Build_reader recs fs (fld +:+ f) QuoteInQuotedField) rest.
Proof.
  revert fld. induction f as [|c f IH]; intros fld.
  - by rewrite app_nil_r.
  - cbn [double_quotes]. destruct (Ascii.eqb_spec c QUOTE) as [->|Hc].
    + rewrite !app_cons. cbn [reader_run].
      change (reader_step (reader_step (Build_reader recs fs fld InQuotedField)
                             QUOTE) QUOTE)
        with (Build_reader recs fs (fld +:+ String QUOTE "") InQuotedField).
      rewrite IH. by rewrite app_assoc.
    + rewrite app_cons. cbn [reader_run].
      assert (reader_step (Build_reader recs fs fld InQuotedField) c =
              Build_reader recs fs (fld +:+ String c "") InQuotedField) as ->.
      { unfold reader_step. simpl.
        by rewrite (proj2 (Ascii.eqb_neq c QUOTE) Hc). }
      rewrite IH. by rewrite app_assoc.
Qed.

(** A written field and the separator after it read like the field's text
    followed by the separator. *)
Lemma run_field recs fs f d rest :
  d = COMMA ∨ d = CR →
  reader_run (Build_reader recs fs "" StartField)
    (csv_field f +:+ String d rest) =
    reader_run (reader_step (Build_reader recs fs f InField) d) rest.
Proof.
  intros Hd. unfold csv_field.
  destruct (PyStr.any csv_special f) eqn:Hf.
  - rewrite app_cons, app_assoc. cbn [reader_run].
    change (reader_step (Build_reader recs fs "" StartField) QUOTE)
      with (Build_reader recs fs "" InQuotedField).
    rewrite app_cons, app_nil_l, run_quoted, app_nil_l. cbn [reader_run].
    by destruct Hd as [-> | ->].
  - destruct f as [|c f].
    + rewrite app_nil_l. cbn [reader_run]. by destruct Hd as [-> | ->].
    + simpl in Hf. apply orb_false_iff in Hf as [Hc Hf].
      rewrite app_cons. cbn [reader_run].
      rewrite step_plain by auto. by rewrite (run_unquoted _ _ _ _ _ Hf).
Qed.

(** At the start of a record the same holds, but for the empty field before
    a line end, which reads as an empty line. *)
Lemma run_field_first recs fs f d rest :
  f ≠ "" ∨ d = COMMA →
  reader_run (Build_reader recs fs "" StartRecord)
    (csv_field f +:+ String d rest) =
    reader_run (Build_reader recs fs "" StartField)
      (csv_field f +:+ String d rest).
Proof.
  intros Hd. unfold csv_field.
  destruct (PyStr.any csv_special f) eqn:Hf; [done|].
  destruct f as [|c f].
  - destruct Hd as [?| ->]; done.
  - simpl in Hf. apply orb_false_iff in Hf as [Hc Hf].
    rewrite app_cons. cbn [reader_run]. by rewrite !step_plain by auto.
Qed.

Lemma join_cons2 sep x y l :
  PyStr.join sep (x :: y :: l) = x +:+ sep +:+ PyStr.join sep (y :: l).
Proof. done. Qed.

Lemma run_fields recs fs0 f fs rest :
  reader_run (Build_reader recs fs0 "" StartField)
    (PyStr.join (String COMMA "") (csv_field <$> f :: fs) +:+ String CR rest) =
    reader_run (Build_reader (recs ++ [fs0 ++ f :: fs]) [] "" EatLF) rest.
Proof.
  revert fs0 f. induction fs as [|g fs IH]; intros fs0 f.
  - cbn [fmap list_fmap PyStr.join]. rewrite run_field by auto. done.
  - rewrite !fmap_cons, join_cons2, !app_assoc, app_cons, app_nil_l.
    rewrite run_field by auto.
    change (reader_step (Build_reader recs fs0 f InField) COMMA)
      with (Build_reader recs (fs0 ++ [f]) "" StartField).
    rewrite <- !fmap_cons, IH. by rewrite <- List.app_assoc.
Qed.

Lemma run_fields_first recs f fs rest :
  f ≠ "" ∨ fs ≠ [] →
  reader_run (Build_reader recs [] "" StartRecord)
    (PyStr.join (String COMMA "") (csv_field <$> f :: fs) +:+ String CR rest) =
    reader_run (Build_reader recs [] "" StartField)
      (PyStr.join (String COMMA "") (csv_field <$> f :: fs) +:+ String CR rest).
Proof.
  intros Hne. destruct fs as [|g fs].
  - cbn [fmap list_fmap PyStr.join]. apply run_field_first.
    by destruct Hne; [left|].
  - rewrite !fmap_cons, join_cons2, !app_assoc, app_cons, app_nil_l.
    apply run_field_first. by right.
Qed.

(** One written record, read from the start of a record. *)
Lemma run_record recs fs rest :
  reader_run (Build_reader recs [] "" StartRecord) (csv_record fs +:+ rest) =
    reader_run (Build_reader (recs ++ [fs]) [] "" StartRecord) rest.
Proof.
  unfold csv_record. rewrite app_assoc, !app_cons, app_nil_l.
  assert (∀ f fs', fs = f :: fs' → f ≠ "" ∨ fs' ≠ [] →
    reader_run (Build_reader recs [] "" StartRecord)
      (PyStr.join (String COMMA "") (csv_field <$> fs)
       +:+ String CR (String LF rest)) =
    reader_run (Build_reader (recs ++ [fs]) [] "" StartRecord) rest) as Hgen.
  { intros f fs' -> Hne. by rewrite run_fields_first, run_fields. }
  destruct fs as [|f [|g fs']].
  - done.
  - destruct f as [|c f]; [done|]. apply (Hgen (String c f) []); [done|by left].
  - apply (Hgen f (g :: fs')); [done|by right].
Qed.

Lemma run_records recs rows rest :
  reader_run (Build_reader recs [] "" StartRecord)
    (PyStr.concat (csv_record <$> rows) +:+ rest) =
    reader_run (Build_reader (recs ++ rows) [] "" StartRecord) rest.
Proof.
  revert recs. induction rows as [|row rows IH]; intros recs.
  - by rewrite List.app_nil_r.
  - rewrite fmap_cons. cbn [PyStr.concat].
    rewrite app_assoc, run_record, IH. by rewrite <- List.app_assoc.
Qed.

(** What the writer wrote, the reader reads. *)
Lemma csv_read_written rows :
  csv_read (PyStr.concat (csv_record <$> rows)) = rows.
Proof.
  unfold csv_read, reader_init.
  rewrite <- (app_nil_r (PyStr.concat _)), run_records. done.
Qed.

Lemma reader_step_tidy r c : reader_tidy r → reader_tidy (reader_step r c).
Proof.
  destruct r as [recs fs fld st]. unfold reader_tidy, reader_step.
  unfold start_record, start_field, after_newline, is_newline. simpl.
  destruct st, (Ascii.eqb c CR), (Ascii.eqb c LF), (Ascii.eqb c QUOTE),
    (Ascii.eqb c COMMA); simpl; intuition congruence.
Qed.

Lemma reader_run_tidy r s : reader_tidy r → reader_tidy (reader_run r s).
Proof.
  revert r. induction s as [|c s IH]; intros r Hr; [done|].
  apply IH, reader_step_tidy, Hr.
Qed.

(** Records appended to a text that ends at the end of a record. *)
Lemma csv_read_appended old rows :
  state (reader_run reader_init old) = StartRecord →
  csv_read (old +:+ PyStr.concat (csv_record <$> rows)) = csv_read old ++ rows.
Proof.
  intros Hend. unfold csv_read. rewrite reader_run_app.
  pose proof (reader_run_tidy reader_init old) as Htidy.
  destruct (reader_run reader_init old) as [recs fs fld st].
  simpl in Hend. subst st. destruct Htidy as [Hfs Hfld]; [by split|].
  simpl in Hfs, Hfld. subst fs fld.
  rewrite <- (app_nil_r (PyStr.concat _)), run_records. done.
Qed.

Lemma written_ends_record rows :
  state (reader_run reader_init (PyStr.concat (csv_record <$> rows))) = StartRecord.
Proof.
  unfold reader_init.
  rewrite <- (app_nil_r (PyStr.concat _)), run_records. done.
Qed.

(** * Facts about the rows and the record store *)

Lemma writerow_headers : writerow (PStr <$> headers) = csv_record headers.
Proof. reflexivity. Qed.

(** The header row is the first line of a new file. *)
Lemma header_line :
  csv_record headers =
    "timestamp,name,email,roll,birthdate,registration,stream,session,year,course"
    +:+ String CR (String LF "").
Proof. reflexivity. Qed.

Lemma concat_app l1 l2 :
  PyStr.concat (l1 ++ l2) = PyStr.concat l1 +:+ PyStr.concat l2.
Proof.
  induction l1 as [|x l1 IH]; [done|].
  simpl. by rewrite IH, app_assoc.
Qed.

Lemma file_text_one row :
  file_text [row] = csv_record headers +:+ csv_record row.
Proof. unfold file_text. simpl. by rewrite app_nil_r. Qed.

Lemma file_text_snoc rows row :
  file_text (rows ++ [row]) = file_text rows +:+ csv_record row.
Proof.
  unfold file_text. rewrite fmap_app, concat_app. simpl.
  by rewrite app_nil_r, app_assoc.
Qed.

Lemma csv_read_file_text rows : csv_read (file_text rows) = headers :: rows.
Proof. apply (csv_read_written (headers :: rows)). Qed.

Section text_payload.
  Context (data : gmap string pyval).

Lemma text_cells ks vs :
  Forall2 (λ k v, data !! k = Some (PStr v) ∧ v ≠ "") ks vs →
  csv_cell <$> (dict_get data <$> ks) = vs.
Proof.
  induction 1 as [|k v ks vs [Hk _] _ IH]; [done|].
  rewrite !fmap_cons, IH. by rewrite (dict_get_lookup _ _ _ Hk).
Qed.

Lemma text_none_missing ks vs :
  Forall2 (λ k v, data !! k = Some (PStr v) ∧ v ≠ "") ks vs →
  List.filter (λ k, negb (truthy (dict_get data k))) ks = [].
Proof.
  induction 1 as [|k v ks vs [Hk Hv] _ IH]; [done|].
  simpl. rewrite (dict_get_lookup _ _ _ Hk), IH. by destruct v.
Qed.

End text_payload.

Lemma session_check_reply v reply :
  session_check v = Ok (Some reply) → reply = session_error.
Proof.
  destruct v; try done. unfold session_check, py_int. simpl.
  destruct (PyStr.split "-" s) as [|p0 [|p1 [|? ?]]]; try done.
  destruct (PyStr.int p0); simpl; [|done].
  destruct (PyStr.int p1); simpl; [|done].
  destruct (_ <=? _)%Z; congruence.
Qed.

(** A successful reply names the derived file, and the store differs from
    the one before by the text appended to that file: the header when the
    file is new, and the one record. *)
Lemma save_profile_success now io fs body o fs' :
  save_profile now io fs body = (o, fs') →
  is_success o = true →
  ∃ f, target_file body = Some f
    ∧ o = Response (SuccessJson f) 200
    ∧ fs' = <[f := default "" (fs !! f)
                  +:+ (match fs !! f with
                       | Some _ => ""
                       | None => csv_record headers
                       end)
                  +:+ csv_record (submitted_record now body)]> fs.
Proof.
  unfold save_profile, target_file.
  destruct body as [data|[]]; simpl; [|by intros [= <- _]..].
  destruct (missing_fields data); [|by intros [= <- _]].
  assert (∀ x : outcome * gmap string string,
    match make_filename_call (dict_get data "stream")
            (py_str (dict_get data "year")) (dict_get data "session") with
    | Ok filename => append_row io fs filename (make_row now data)
    | Raise e => (Unhandled e, fs)
    end = x → x = (o, fs') → is_success o = true →
    ∃ f, match make_filename_call (dict_get data "stream")
            (py_str (dict_get data "year")) (dict_get data "session") with
         | Ok f => Some f
         | Raise _ => None
         end = Some f
       ∧ o = Response (SuccessJson f) 200
       ∧ fs' = <[f := default "" (fs !! f)
                  +:+ (match fs !! f with
                       | Some _ => ""
                       | None => csv_record headers
                       end)
                  +:+ csv_record (csv_cell <$> make_row now data)]> fs) as Hgo.
  { intros x Hx -> Hok.
    destruct (make_filename_call _ _ _) as [f|e]; [|by injection Hx as <- _].
    exists f. unfold append_row in Hx.
    destruct io; [|by injection Hx as <- _..].
    injection Hx as <- <-. split; [done|]. split; [done|].
    f_equal. unfold writerow. by destruct (fs !! f) as [old|]. }
  destruct (session_check (dict_get data "session")) as [[reply|]|e] eqn:Hcheck.
  - apply session_check_reply in Hcheck as ->. by intros [= <- _].
  - intros Hx. by apply (Hgo _ eq_refl).
  - intros Hx. by apply (Hgo _ eq_refl).
Qed.

Lemma target_is_object body f :
  target_file body = Some f → ∃ data, body = JObject data.
Proof. destruct body; [eauto|done]. Qed.

Lemma records_for_not_headers file reqs : headers ∉ records_for file reqs.
Proof.
  induction reqs as [|r reqs IH]; [apply not_elem_of_nil|].
  simpl. case_decide as Htarget; [|done].
  apply not_elem_of_cons. split; [|done].
  apply target_is_object in Htarget as [data ->].
  intros Heq. apply (isoformat_not_timestamp (req_now r)).
  apply (f_equal head) in Heq. simpl in Heq. congruence.
Qed.

(** The file after a run of successful requests. *)
Lemma serve_file_state file reqs fs rows :
  fs !! file = file_state rows →
  Forall (λ o, is_success o = true) (serve fs reqs).1 →
  (serve fs reqs).2 !! file = file_state (rows ++ records_for file reqs).
Proof.
  revert fs rows. induction reqs as [|r reqs IH]; intros fs rows Hfile Hok.
  - simpl. by rewrite List.app_nil_r.
  - simpl in *.
    destruct (save_profile (req_now r) (req_io r) fs (req_body r))
      as [o fs1] eqn:Hstep.
    destruct (serve fs1 reqs) as [os fs2] eqn:Hrest. simpl in *.
    apply Forall_cons in Hok as [Ho Hos].
    destruct (save_profile_success _ _ _ _ _ _ Hstep Ho) as (f & Htarget & _ & ->).
    rewrite Htarget.
    assert (fs2 = (serve (<[f := default "" (fs !! f)
                  +:+ (match fs !! f with
                       | Some _ => ""
                       | None => csv_record headers
                       end)
                  +:+ csv_record (submitted_record (req_now r) (req_body r))]> fs)
                     reqs).2) as -> by by rewrite Hrest.
    case_decide as Hf.
    + injection Hf as ->.
      replace (rows ++ submitted_record (req_now r) (req_body r)
                 :: records_for file reqs)
        with ((rows ++ [submitted_record (req_now r) (req_body r)])
                ++ records_for file reqs) by by rewrite <- List.app_assoc.
      apply IH; [|by rewrite Hrest].
      rewrite lookup_insert_eq, Hfile. destruct rows as [|row rows]; simpl.
      * by rewrite file_text_one.
      * rewrite app_nil_l.
        change (row :: rows ++ [submitted_record (req_now r) (req_body r)])
          with ((row :: rows) ++ [submitted_record (req_now r) (req_body r)]).
        by rewrite file_text_snoc.
    + apply IH; [|by rewrite Hrest].
      rewrite lookup_insert_ne by congruence. done.
Qed.

(** No request takes text away from a file. *)
Lemma save_profile_extends now io fs body g old :
  fs !! g = Some old →
  ∃ more, (save_profile now io fs body).2 !! g = Some (old +:+ more).
Proof.
  intros Hg.
  assert (∃ more, fs !! g = Some (old +:+ more)) as Hsame.
  { exists "". by rewrite app_nil_r. }
  assert (∀ f row, ∃ more, (append_row io fs f row).2 !! g = Some (old +:+ more))
    as Happend.
  { intros f row. unfold append_row. destruct io; simpl; [|done|].
    - destruct (decide (f = g)) as [->|Hne].
      + rewrite lookup_insert_eq, Hg. simpl. eauto.
      + by rewrite lookup_insert_ne.
    - destruct (decide (f = g)) as [->|Hne].
      + rewrite lookup_insert_eq, Hg. simpl. eauto.
      + by rewrite lookup_insert_ne. }
  unfold save_profile.
  destruct body as [data|[]]; simpl; try done;
    (destruct (missing_fields _); [|done]);
    (destruct (session_check _) as [[reply|]|e]; [done|..]);
    destruct (make_filename_call _ _ _); simpl; done.
Qed.

(** * The record store: header once, append only, rows read back *)

(** C2: the first successful submission to a file that did not exist writes
    the header row and one data row; a later successful submission to the
    file appends one data row and nothing else, and touches no other file;
    so after any run of successful submissions, started without the file,
    the file holds the header as its first record and nowhere else, followed
    by the submitted records; and no request takes text away from a file.
    (A line is read as a CSV record: a field may itself hold line breaks.) *)
Theorem header_once_append_only file :
  (∀ now io fs body fs',
     fs !! file = None →
     save_profile now io fs body = (Response (SuccessJson file) 200, fs') →
     fs' !! file =
       Some (csv_record headers +:+ csv_record (submitted_record now body)))
  ∧ (∀ now io fs body fs' old,
       fs !! file = Some old →
       save_profile now io fs body = (Response (SuccessJson file) 200, fs') →
       fs' !! file = Some (old +:+ csv_record (submitted_record now body)))
  ∧ (∀ now io fs body fs' g,
       save_profile now io fs body = (Response (SuccessJson file) 200, fs') →
       g ≠ file → fs' !! g = fs !! g)
  ∧ (∀ fs reqs,
       fs !! file = None →
       Forall (λ o, is_success o = true) (serve fs reqs).1 →
       (serve fs reqs).2 !! file = file_state (records_for file reqs)
       ∧ csv_read (file_text (records_for file reqs))
         = headers :: records_for file reqs
       ∧ headers ∉ records_for file reqs)
  ∧ (∀ now io fs body g old,
       fs !! g = Some old →
       ∃ more, (save_profile now io fs body).2 !! g = Some (old +:+ more)).
Proof.
  assert (∀ now io fs body fs',
    save_profile now io fs body = (Response (SuccessJson file) 200, fs') →
    fs' = <[file := default "" (fs !! file)
                  +:+ (match fs !! file with
                       | Some _ => ""
                       | None => csv_record headers
                       end)
                  +:+ csv_record (submitted_record now body)]> fs) as Hstep.
  { intros now io fs body fs' Hrun.
    destruct (save_profile_success _ _ _ _ _ _ Hrun eq_refl)
      as (f & _ & [= <-] & ->). done. }
  repeat split.
  - intros now io fs body fs' Hnew Hrun.
    rewrite (Hstep _ _ _ _ _ Hrun), lookup_insert_eq, Hnew. done.
  - intros now io fs body fs' old Hold Hrun.
    rewrite (Hstep _ _ _ _ _ Hrun), lookup_insert_eq, Hold. done.
  - intros now io fs body fs' g Hrun Hg.
    rewrite (Hstep _ _ _ _ _ Hrun). by rewrite lookup_insert_ne.
  - by apply (serve_file_state file reqs fs []).
  - apply csv_read_file_text.
  - apply records_for_not_headers.
  - intros now io fs body g old. apply save_profile_extends.
Qed.

Lemma header_once_append_only_witness :
  (save_profile sample_time IoOk ∅ (JObject sample_data)).2 !! sample_file
    = Some (csv_record headers +:+ csv_record sample_record)
  ∧ (save_profile sample_time IoOk (<[sample_file := "x"]> ∅)
       (JObject sample_data)).2 !! sample_file
    = Some ("x" +:+ csv_record sample_record)
  ∧ (serve ∅ [sample_request; sample_request]).2 !! sample_file
    = Some (file_text [sample_record; sample_record])
  ∧ csv_read (file_text [sample_record; sample_record])
    = [headers; sample_record; sample_record]
  ∧ headers ∉ [sample_record; sample_record].
Proof.
  split; [|split].
  - refine (proj1 (header_once_append_only sample_file)
              sample_time IoOk ∅ (JObject sample_data) _ _ _);
      [reflexivity | vm_compute; reflexivity].
  - refine (proj1 (proj2 (header_once_append_only sample_file))
              sample_time IoOk (<[sample_file := "x"]> ∅) (JObject sample_data)
              _ "x" _ _);
      [reflexivity | vm_compute; reflexivity].
  - refine (proj1 (proj2 (proj2 (proj2 (header_once_append_only sample_file))))
              ∅ [sample_request; sample_request] _ _);
      [reflexivity | vm_compute; repeat constructor].
Defined.

(** Every text field of a payload is read back as it was submitted. *)
Lemma holds_text_row now data values :
  holds_text data values →
  missing_fields data = []
  ∧ csv_cell <$> make_row now data = isoformat now :: values.
Proof.
  intros Htext. split.
  - by apply (text_none_missing data required values).
  - unfold make_row. rewrite fmap_cons. simpl csv_cell.
    by rewrite (text_cells data required values).
Qed.

(** Two submissions that differ in the raw stream, CS and C.S., are
    appended to one file. *)
Lemma distinct_streams_share_file :
  let first := <["stream" := PStr "CS"]> sample_data in
  let second := <["stream" := PStr "C.S."]> sample_data in
  let run :=
    serve ∅ [ {| req_now := sample_time; req_io := IoOk; req_body := JObject first |};
              {| req_now := sample_time; req_io := IoOk; req_body := JObject second |} ] in
  run.1 = [Response (SuccessJson "CS_2nd_2023-26.csv") 200;
           Response (SuccessJson "CS_2nd_2023-26.csv") 200]
  ∧ (csv_read <$> run.2 !! "CS_2nd_2023-26.csv") =
      Some [headers;
            isoformat sample_time :: <[5%nat := "CS"]> sample_values;
            isoformat sample_time :: <[5%nat := "C.S."]> sample_values].
Proof. by vm_compute. Qed.

(** * More about the file-name derivation *)

Lemma all_map_to p q (f : ascii → ascii) s :
  (∀ c, p c = true → q (f c) = true) →
  PyStr.all p s = true → PyStr.all q (PyStr.map f s) = true.
Proof.
  intros Hf. induction s as [|c s IH]; [done|].
  simpl. intros [? ?]%andb_true_iff. apply andb_true_iff. auto.
Qed.

Lemma map_fixed p (f : ascii → ascii) s :
  (∀ c, p c = true → f c = c) → PyStr.all p s = true → PyStr.map f s = s.
Proof.
  intros Hf. induction s as [|c s IH]; [done|].
  simpl. intros [? ?]%andb_true_iff. f_equal; auto.
Qed.

Lemma map_app (f : ascii → ascii) s t :
  PyStr.map f (s +:+ t) = PyStr.map f s +:+ PyStr.map f t.
Proof. induction s as [|c s IH]; [done|]. rewrite !app_cons. simpl. by rewrite IH. Qed.

Lemma map_map (f g : ascii → ascii) s :
  PyStr.map f (PyStr.map g s) = PyStr.map (λ c, f (g c)) s.
Proof. induction s as [|c s IH]; [done|]. simpl. by rewrite IH. Qed.

Lemma map_ext (f g : ascii → ascii) s :
  (∀ c, f c = g c) → PyStr.map f s = PyStr.map g s.
Proof. intros Hfg. induction s as [|c s IH]; [done|]. simpl. by rewrite Hfg, IH. Qed.

Lemma filter_map p (f : ascii → ascii) s :
  (∀ c, p (f c) = p c) →
  PyStr.filter p (PyStr.map f s) = PyStr.map f (PyStr.filter p s).
Proof.
  intros Hf. induction s as [|c s IH]; [done|].
  simpl. rewrite Hf. destruct (p c); simpl; by rewrite IH.
Qed.

Lemma all_filter_keeps p q s :
  PyStr.all p s = true → PyStr.all p (PyStr.filter q s) = true.
Proof.
  induction s as [|c s IH]; [done|].
  simpl. intros [Hc Hs]%andb_true_iff.
  destruct (q c); simpl; [rewrite Hc|]; auto.
Qed.

Lemma all_filter_both p q r s :
  (∀ c, p c = true → q c = true → r c = true) →
  PyStr.all p s = true → PyStr.all r (PyStr.filter q s) = true.
Proof.
  intros Hr. induction s as [|c s IH]; [done|].
  simpl. intros [Hc Hs]%andb_true_iff.
  destruct (q c) eqn:Hq; simpl; [rewrite (Hr c Hc Hq)|]; auto.
Qed.

Lemma all_drop p n s : PyStr.all p s = true → PyStr.all p (PyStr.drop n s) = true.
Proof.
  revert s. induction n as [|n IH]; intros [|c s]; simpl; try done.
  intros [_ ?]%andb_true_iff. auto.
Qed.

Lemma upper_char_stream c : word_char c = true → stream_char (PyStr.upper_char c) = true.
Proof. destruct c as [[] [] [] [] [] [] [] []]; vm_compute; congruence. Qed.

Lemma stream_char_fixed c :
  stream_char c = true →
  word_char c = true ∧ PyStr.upper_char c = c
  ∧ (if Ascii.eqb c " " then "_"%char else c) = c.
Proof. destruct c as [[] [] [] [] [] [] [] []]; vm_compute; intuition congruence. Qed.

Lemma upper_char_commutes c :
  word_char (PyStr.upper_char c) = word_char c
  ∧ PyStr.upper_char (PyStr.upper_char c) = PyStr.upper_char c
  ∧ (if Ascii.eqb (PyStr.upper_char c) " " then "_"%char else PyStr.upper_char c)
    = PyStr.upper_char (if Ascii.eqb c " " then "_"%char else c).
Proof. destruct c as [[] [] [] [] [] [] [] []]; vm_compute; done. Qed.

Lemma sanitize_stream_chars stream :
  PyStr.all stream_char (sanitize_stream stream) = true.
Proof.
  unfold sanitize_stream, PyStr.re_sub_outside.
  destruct (PyStr.is_empty _); [done|].
  eapply all_map_to; [apply upper_char_stream | apply all_filter].
Qed.

Lemma stream_char_spelled c :
  stream_char c = true ↔
    (65 ≤ PyStr.code c ≤ 90)%N ∨ (48 ≤ PyStr.code c ≤ 57)%N ∨ c = "_"%char.
Proof.
  unfold stream_char, PyStr.upper_letter, PyStr.digit, PyStr.between.
  rewrite !orb_true_iff, !andb_true_iff, !N.leb_le, !Ascii.eqb_eq. tauto.
Qed.

(** X1: the stream component is never empty and holds only the capital
    letters A-Z, the digits and the underscore: no lower-case letter, no
    space, no period. *)
Theorem sanitize_stream_alphabet stream :
  sanitize_stream stream ≠ ""
  ∧ ∀ i c, String.get i (sanitize_stream stream) = Some c →
      (65 ≤ PyStr.code c ≤ 90)%N ∨ (48 ≤ PyStr.code c ≤ 57)%N ∨ c = "_"%char.
Proof.
  split; [apply sanitize_stream_not_empty|].
  intros i c Hget. apply stream_char_spelled.
  revert i c Hget. apply all_get, sanitize_stream_chars.
Qed.

Lemma sanitize_stream_fixed s :
  s ≠ "" → PyStr.all stream_char s = true → sanitize_stream s = s.
Proof.
  intros Hne Hs. unfold sanitize_stream, PyStr.re_sub_outside, PyStr.replace.
  rewrite (map_fixed stream_char) by (done || apply stream_char_fixed).
  rewrite filter_all by (eapply all_impl; [apply stream_char_fixed | done]).
  destruct s as [|c s]; [done|]. simpl PyStr.is_empty. cbv iota.
  apply (map_fixed stream_char); [apply stream_char_fixed | done].
Qed.

(** X2: sanitizing is idempotent: a stream component sanitizes to itself. *)
Theorem sanitize_stream_idempotent stream :
  sanitize_stream (sanitize_stream stream) = sanitize_stream stream.
Proof.
  apply sanitize_stream_fixed;
    [apply sanitize_stream_not_empty | apply sanitize_stream_chars].
Qed.

Lemma sanitize_stream_of_upper s :
  sanitize_stream (PyStr.upper s) = sanitize_stream s.
Proof.
  unfold sanitize_stream, PyStr.re_sub_outside, PyStr.replace, PyStr.upper.
  rewrite map_map.
  rewrite (map_ext _ (λ c, PyStr.upper_char (if Ascii.eqb c " " then "_"%char else c)))
    by (intros c; apply upper_char_commutes).
  rewrite <- (map_map PyStr.upper_char).
  rewrite filter_map by (intros c; apply upper_char_commutes).
  rewrite map_is_empty. destruct (PyStr.is_empty _); [done|].
  rewrite map_map. apply map_ext. intros c. apply upper_char_commutes.
Qed.

(** X3: the stream component ignores the case of the ASCII letters: two
    streams that are equal once a-z are raised to A-Z give the same
    component, and so the same file name. *)
Theorem sanitize_stream_ignores_case s t :
  PyStr.map PyStr.upper_char s = PyStr.map PyStr.upper_char t →
  sanitize_stream s = sanitize_stream t
  ∧ ∀ year session, make_filename s year session = make_filename t year session.
Proof.
  intros Hcase.
  assert (sanitize_stream s = sanitize_stream t) as Heq.
  { rewrite <- (sanitize_stream_of_upper s), <- (sanitize_stream_of_upper t).
    unfold PyStr.upper. by rewrite Hcase. }
  split; [done|]. intros year session. by rewrite !make_filename_parts, Heq.
Qed.

Lemma sanitize_stream_ignores_case_witness :
  sanitize_stream "b.Tech cs" = sanitize_stream "B.TECH CS"
  ∧ ∀ year session,
      make_filename "b.Tech cs" year session = make_filename "B.TECH CS" year session.
Proof. apply (sanitize_stream_ignores_case "b.Tech cs" "B.TECH CS"). reflexivity. Defined.

Lemma dropped_text_vanishes x :
  PyStr.all dropped_char x = true →
  PyStr.filter word_char (PyStr.replace " " "_" x) = "".
Proof.
  unfold PyStr.replace, dropped_char.
  induction x as [|c x IH]; [done|].
  simpl. intros [[Hw Hsp]%andb_true_iff Hx]%andb_true_iff.
  apply negb_true_iff in Hw, Hsp. rewrite Hsp, Hw. auto.
Qed.

(** X4: characters that are no letter, digit, underscore or space leave no
    trace: inserting a run of them anywhere in the stream changes neither the
    stream component nor the file name. *)
Theorem sanitize_stream_ignores_dropped a x b :
  PyStr.all dropped_char x = true →
  sanitize_stream (a +:+ x +:+ b) = sanitize_stream (a +:+ b)
  ∧ ∀ year session,
      make_filename (a +:+ x +:+ b) year session
      = make_filename (a +:+ b) year session.
Proof.
  intros Hx.
  assert (sanitize_stream (a +:+ x +:+ b) = sanitize_stream (a +:+ b)) as Heq.
  { unfold sanitize_stream, PyStr.re_sub_outside.
    unfold PyStr.replace at 1 2. rewrite !map_app, !filter_app.
    fold (PyStr.replace " " "_" x). rewrite (dropped_text_vanishes x Hx).
    rewrite app_nil_l.
    unfold PyStr.replace. by rewrite !map_app, !filter_app. }
  split; [done|]. intros year session. by rewrite !make_filename_parts, Heq.
Qed.

Lemma sanitize_stream_ignores_dropped_witness :
  sanitize_stream ("B" +:+ ".-/" +:+ "Tech") = sanitize_stream ("B" +:+ "Tech")
  ∧ ∀ year session,
      make_filename ("B" +:+ ".-/" +:+ "Tech") year session
      = make_filename ("B" +:+ "Tech") year session.
Proof. apply (sanitize_stream_ignores_dropped "B" ".-/" "Tech"). reflexivity. Defined.

Lemma sanitize_stream_head stream :
  ∃ c rest, sanitize_stream stream = String c rest ∧ stream_char c = true.
Proof.
  pose proof (sanitize_stream_not_empty stream) as Hne.
  pose proof (sanitize_stream_chars stream) as Hall.
  destruct (sanitize_stream stream) as [|c rest]; [done|].
  simpl in Hall. apply andb_true_iff in Hall as [Hc _]. eauto.
Qed.

(** X5: every derived file name starts with a capital letter, a digit or an
    underscore and ends with the extension .csv; so it is never the name of
    a hidden file nor one of the directory names . and .. *)
Theorem make_filename_shape stream year session :
  ∃ c middle,
    make_filename stream year session = String c (middle +:+ ".csv")
    ∧ ((65 ≤ PyStr.code c ≤ 90)%N ∨ (48 ≤ PyStr.code c ≤ 57)%N ∨ c = "_"%char).
Proof.
  destruct (sanitize_stream_head stream) as (c & rest & Hhead & Hc).
  exists c,
    (rest +:+ "_"
     +:+ PyStr.filter filename_char (default (year +:+ "th") (ORDINAL !! year))
     +:+ "_" +:+ PyStr.filter filename_char (session_filename_piece session)).
  split; [|by apply stream_char_spelled].
  rewrite make_filename_parts, Hhead, app_cons. f_equal.
  by rewrite !app_assoc.
Qed.

Lemma numeric_in_name c :
  PyStr.isdigit_char c || Ascii.eqb c "-" = true → filename_char c = true →
  digit_or_hyphen c = true.
Proof. destruct c as [[] [] [] [] [] [] [] []]; vm_compute; congruence. Qed.

Lemma session_piece_chars session :
  PyStr.all digit_or_hyphen
    (PyStr.filter filename_char (session_filename_piece session)) = true.
Proof.
  assert (PyStr.all digit_or_hyphen
            (PyStr.filter filename_char
               (PyStr.re_sub_outside digit_or_hyphen session)) = true) as Hfallback.
  { apply all_filter_keeps, all_filter. }
  unfold session_filename_piece.
  destruct (PyStr.split "-" session) as [|start [|end_ [|? ?]]]; try done.
  destruct (PyStr.isdigit start && PyStr.isdigit end_) eqn:Hnum; [|done].
  apply andb_true_iff in Hnum as [Hs He].
  unfold PyStr.isdigit in Hs, He.
  apply andb_true_iff in Hs as [_ Hs]. apply andb_true_iff in He as [_ He].
  apply (all_filter_both (λ c, PyStr.isdigit_char c || Ascii.eqb c "-"));
    [apply numeric_in_name|].
  rewrite all_app. apply andb_true_iff; split.
  - eapply all_impl; [|exact Hs]. by intros c ->.
  - change ("-" +:+ PyStr.last_two end_) with (String "-" (PyStr.last_two end_)).
    apply andb_true_iff; split; [done|].
    apply all_drop. eapply all_impl; [|exact He]. by intros c ->.
Qed.

(** X6: a derived file name is the stream component, an underscore, the
    ordinal of the year after the safety pass, an underscore, the session
    component after the safety pass and .csv; and that session component
    holds only the digits 0-9 and hyphens, whatever the session text was (a
    superscript digit that passed as numeric is stripped). *)
Theorem session_component_alphabet stream year session :
  make_filename stream year session
    = sanitize_stream stream +:+ "_"
      +:+ PyStr.filter filename_char (default (year +:+ "th") (ORDINAL !! year))
      +:+ "_" +:+ PyStr.filter filename_char (session_filename_piece session)
      +:+ ".csv"
  ∧ (∀ i c,
       String.get i (PyStr.filter filename_char (session_filename_piece session))
         = Some c →
       (48 ≤ PyStr.code c ≤ 57)%N ∨ c = "-"%char)
  ∧ make_filename "A" "1" (String "178" "-2026") = "A_1st_-26.csv"
  ∧ make_filename "A" "7" "20x3/2026" = "A_7th_2032026.csv".
Proof.
  split; [apply make_filename_parts|]. split; [|by vm_compute].
  intros i c Hget.
  assert (digit_or_hyphen c = true) as Hc.
  { revert i c Hget. apply all_get, session_piece_chars. }
  revert Hc. unfold digit_or_hyphen, PyStr.digit, PyStr.between.
  rewrite orb_true_iff, andb_true_iff, !N.leb_le, Ascii.eqb_eq. tauto.
Qed.

(** X7: only the last two characters of the end year reach the file name:
    two sessions with the same start year whose numeric end years agree in
    their last two characters give the same session component and the same
    file name. *)
Theorem session_end_year_collapse start end1 end2 :
  PyStr.isdigit start = true →
  PyStr.isdigit end1 = true →
  PyStr.isdigit end2 = true →
  PyStr.last_two end1 = PyStr.last_two end2 →
  session_filename_piece (start +:+ "-" +:+ end1)
    = session_filename_piece (start +:+ "-" +:+ end2)
  ∧ ∀ stream year,
      make_filename stream year (start +:+ "-" +:+ end1)
      = make_filename stream year (start +:+ "-" +:+ end2).
Proof.
  intros Hs H1 H2 Hlast.
  assert (session_filename_piece (start +:+ "-" +:+ end1)
          = session_filename_piece (start +:+ "-" +:+ end2)) as Heq.
  { unfold session_filename_piece.
    rewrite !split_two_numeric by done. by rewrite Hs, H1, H2, Hlast. }
  split; [done|]. intros stream year. by rewrite !make_filename_parts, Heq.
Qed.

Lemma session_end_year_collapse_witness :
  session_filename_piece ("2023" +:+ "-" +:+ "2026")
    = session_filename_piece ("2023" +:+ "-" +:+ "2126")
  ∧ ∀ stream year,
      make_filename stream year ("2023" +:+ "-" +:+ "2026")
      = make_filename stream year ("2023" +:+ "-" +:+ "2126").
Proof.
  apply (session_end_year_collapse "2023" "2026" "2126"); reflexivity.
Defined.

(** * More about the handler *)

Lemma make_filename_call_raises stream year session e :
  make_filename_call stream year session = Raise e → e = AttributeError.
Proof.
  unfold make_filename_call, as_str.
  destruct stream; simpl; try (by intros [= <-]).
  destruct session; simpl; by intros [= <-].
Qed.

(** The reply is fixed by the request, and the store changes at most under
    the derived name, by text put behind what the file held. *)
Lemma save_profile_shape now io body :
  ∃ (o : outcome) (change : option (string * (option string → string))),
    (∀ f h, change = Some (f, h) → target_file body = Some f)
    ∧ ∀ fs, save_profile now io fs body =
        (o, match change with
            | Some (f, h) => <[f := default "" (fs !! f) +:+ h (fs !! f)]> fs
            | None => fs
            end).
Proof.
  unfold save_profile, target_file.
  destruct body as [data|[]];
    [|by exists (Unhandled AttributeError), None
     |by eexists (Response _ 400), None].
  destruct (missing_fields data);
    [|by eexists (Response _ 400), None].
  assert (∃ (o : outcome) (change : option (string * (option string → string))),
    (∀ f h, change = Some (f, h) →
       match make_filename_call (dict_get data "stream")
               (py_str (dict_get data "year")) (dict_get data "session") with
       | Ok f0 => Some f0
       | Raise _ => None
       end = Some f)
    ∧ ∀ fs,
        match make_filename_call (dict_get data "stream")
                (py_str (dict_get data "year")) (dict_get data "session") with
        | Ok filename => append_row io fs filename (make_row now data)
        | Raise e => (Unhandled e, fs)
        end =
        (o, match change with
            | Some (f, h) => <[f := default "" (fs !! f) +:+ h (fs !! f)]> fs
            | None => fs
            end)) as Hgo.
  { destruct (make_filename_call _ _ _) as [f|e];
      [|by exists (Unhandled e), None].
    unfold append_row. destruct io as [|msg|written msg].
    - exists (Response (SuccessJson f) 200),
        (Some (f, λ cur,
           (if negb (bool_decide (is_Some cur))
            then writerow (PStr <$> headers) else "")
           +:+ writerow (make_row now data))).
      split; [by intros ? ? [= -> _]|done].
    - by eexists (Response _ 500), None.
    - exists (Response (ErrorJson ("Could not write CSV: " +:+ msg)) 500),
        (Some (f, λ cur,
           PyStr.take written
             ((if negb (bool_decide (is_Some cur))
               then writerow (PStr <$> headers) else "")
              +:+ writerow (make_row now data)))).
      split; [by intros ? ? [= -> _]|done]. }
  destruct (session_check (dict_get data "session")) as [[reply|]|e];
    [by exists reply, None|done..].
Qed.

(** X8: the reply never depends on what the record store holds: the same
    request gets the same reply over any two stores, so a submission is
    never refused or answered differently because of earlier ones. *)
Theorem reply_independent_of_store now io body fs1 fs2 :
  (save_profile now io fs1 body).1 = (save_profile now io fs2 body).1.
Proof.
  destruct (save_profile_shape now io body) as (o & change & _ & Hrun).
  by rewrite !Hrun.
Qed.

(** X9: a request changes no file but the one its fields derive: every
    other file, and every file when no name is derived, is left as it was,
    whether the request succeeds or fails. *)
Theorem only_target_file_touched now io fs body g :
  target_file body ≠ Some g →
  (save_profile now io fs body).2 !! g = fs !! g.
Proof.
  intros Hg.
  destruct (save_profile_shape now io body) as (o & change & Htarget & Hrun).
  rewrite Hrun. simpl. destruct change as [[f h]|]; [|done].
  rewrite lookup_insert_ne; [done|].
  intros ->. apply Hg. by apply (Htarget g h).
Qed.

Lemma only_target_file_touched_witness :
  (save_profile sample_time IoOk (<["other.csv" := "kept"]> ∅)
     (JObject sample_data)).2 !! "other.csv"
  = (<["other.csv" := "kept"]> ∅ : gmap string string) !! "other.csv".
Proof.
  apply (only_target_file_touched sample_time IoOk
           (<["other.csv" := "kept"]> ∅) (JObject sample_data) "other.csv").
  vm_compute. discriminate.
Defined.

(** Once the body is decoded the handler answers in one of four ways. *)
Lemma reply_cases_after_decoding now io fs body :
  ((save_profile now io fs body).1 = Unhandled AttributeError
   ∧ (save_profile now io fs body).2 = fs)
  ∨ (∃ m, (save_profile now io fs body).1 = Response (ErrorJson m) 400
          ∧ (save_profile now io fs body).2 = fs)
  ∨ (∃ m, (save_profile now io fs body).1 = Response (ErrorJson m) 500
          ∧ io ≠ IoOk)
  ∨ (∃ f, (save_profile now io fs body).1 = Response (SuccessJson f) 200
          ∧ io = IoOk ∧ target_file body = Some f).
Proof.
  unfold save_profile, target_file.
  destruct body as [data|[]]; [|by left|by right; left; eexists].
  destruct (missing_fields data); [|by right; left; eexists].
  assert (∀ reply, session_check (dict_get data "session") = Ok (Some reply) →
                   reply = session_error) as Hreply
    by (intros reply; apply session_check_reply).
  destruct (session_check (dict_get data "session")) as [[reply|]|e0].
  { rewrite (Hreply reply eq_refl). right; left. by eexists. }
  all: destruct (make_filename_call _ _ _) as [f|e] eqn:Hcall;
    [|apply make_filename_call_raises in Hcall as ->; by left].
  all: unfold append_row; destruct io; simpl.
  all: try (right; right; left; by eexists).
  all: right; right; right; by eexists.
Qed.

Lemma make_filename_call_raises_iff stream year session e :
  make_filename_call stream year session = Raise e ↔
    e = AttributeError ∧ (is_text stream = false ∨ is_text session = false).
Proof.
  unfold make_filename_call, as_str.
  destruct stream, session; simpl; split;
    try (intros [= <-]; by auto); try (by intros [-> _]);
    try done; intros [_ [?|?]]; done.
Qed.

Lemma session_check_rejects s :
  (∃ reply, session_check (PStr s) = Ok (Some reply)) ↔
  ∃ s0 s1, session_years s = Some (s0, s1) ∧ (s1 ≤ s0)%Z.
Proof.
  split.
  - intros [reply Hcheck]. revert Hcheck.
    unfold session_check, session_years, py_int. simpl.
    destruct (PyStr.split "-" s) as [|p0 [|p1 [|? ?]]]; try done.
    destruct (PyStr.int p0) as [s0|]; simpl; [|done].
    destruct (PyStr.int p1) as [s1|]; simpl; [|done].
    destruct (s1 <=? s0)%Z eqn:Hle; [|done].
    intros _. exists s0, s1. split; [done|]. by apply Z.leb_le.
  - intros (s0 & s1 & Hyears & Hle). exists session_error.
    by apply (session_check_violation s s0 s1).
Qed.

Lemma unhandled_after_validation now io fs data e :
  missing_fields data = [] →
  (save_profile now io fs (JObject data)).1 = Unhandled e ↔
    (∀ reply, session_check (dict_get data "session") ≠ Ok (Some reply))
    ∧ make_filename_call (dict_get data "stream")
        (py_str (dict_get data "year")) (dict_get data "session") = Raise e.
Proof.
  intros Hfull. rewrite (save_profile_complete _ _ _ _ Hfull).
  destruct (session_check (dict_get data "session")) as [[reply|]|e0] eqn:Hcheck.
  - apply session_check_reply in Hcheck as ->. split; [done|].
    intros [Hno _]. by destruct (Hno session_error).
  - destruct (make_filename_call _ _ _) as [f|e'].
    + unfold append_row. destruct io; simpl; split; try done; by intros [_ ?].
    + simpl. split; [by intros [= ->]|by intros [_ [= ->]]].
  - destruct (make_filename_call _ _ _) as [f|e'].
    + unfold append_row. destruct io; simpl; split; try done; by intros [_ ?].
    + simpl. split; [by intros [= ->]|by intros [_ [= ->]]].
Qed.

Lemma session_passes s :
  (∀ reply, session_check (PStr s) ≠ Ok (Some reply)) ↔
  ∀ s0 s1, session_years s = Some (s0, s1) → (s0 < s1)%Z.
Proof.
  pose proof (session_check_rejects s) as Hrejects. split.
  - intros Hno s0 s1 Hyears.
    destruct (Z.lt_ge_cases s0 s1) as [?|Hle]; [done|].
    destruct (proj2 Hrejects) as [reply Hreply]; [by eauto|].
    by destruct (Hno reply).
  - intros Horder reply Hreply.
    destruct (proj1 Hrejects) as (s0 & s1 & Hyears & Hle); [by eauto|].
    specialize (Horder _ _ Hyears). lia.
Qed.

(** When an exception leaves the handler after the body is decoded. *)
Lemma unhandled_after_decoding now io fs body e :
  (save_profile now io fs body).1 = Unhandled e ↔
    e = AttributeError
    ∧ (body = JOther true
       ∨ ∃ data, body = JObject data ∧ missing_fields data = []
           ∧ (is_text (dict_get data "session") = false
              ∨ ∃ s, dict_get data "session" = PStr s
                  ∧ is_text (dict_get data "stream") = false
                  ∧ ∀ s0 s1, session_years s = Some (s0, s1) → (s0 < s1)%Z)).
Proof.
  destruct body as [data|[]].
  2: { split; [intros [= <-]; auto|by intros [-> _]]. }
  2: { split; [done|]. intros [_ [?|(data & ? & _)]]; done. }
  destruct (missing_fields data) as [|k missing] eqn:Hmissing.
  2: { rewrite save_profile_missing by by rewrite Hmissing. split; [done|].
       intros [_ [?|(data' & [= <-] & Hnil & _)]]; [done|]. congruence. }
  rewrite (unhandled_after_validation _ _ _ _ _ Hmissing),
    make_filename_call_raises_iff.
  destruct (dict_get data "session") as [| | |s|] eqn:Hsession.
  1-3, 5: (split;
    [ intros [_ [-> _]]; split; [done|]; right; exists data;
      rewrite Hsession; by auto
    | intros [-> _]; split; [done|]; by auto ]).
  rewrite session_passes. split.
  - intros (Horder & -> & [Hstream|?]); [|done].
    split; [done|]. right. exists data. do 2 (split; [done|]).
    right. by exists s.
  - intros [-> [?|(data' & [= <-] & _ & [Hno|(s' & Hs' & Hstream & Horder)])]];
      [done|by rewrite Hsession in Hno|].
    rewrite Hsession in Hs'. injection Hs' as <-. auto.
Qed.

(** A payload of nine texts whose session passes or skips the range check
    goes to the append, and its row is the time stamp and the nine texts. *)
Lemma text_payload_appends now io fs data
    name email roll birthdate registration stream session year course :
  holds_text data
    [name; email; roll; birthdate; registration; stream; session; year; course] →
  (∀ s0 s1, session_years session = Some (s0, s1) → (s0 < s1)%Z) →
  save_profile now io fs (JObject data)
    = append_row io fs (make_filename stream year session) (make_row now data)
  ∧ writerow (make_row now data)
    = csv_record [isoformat now; name; email; roll; birthdate; registration;
                  stream; session; year; course].
Proof.
  intros Htext Hsession.
  destruct (holds_text_row now _ _ Htext) as [Hfull Hrow].
  unfold holds_text, required in Htext.
  repeat match type of Htext with
         | Forall2 _ (_ :: _) (_ :: _) =>
             apply Forall2_cons in Htext as [[? _] Htext]
         end.
  split; [|unfold writerow; by rewrite Hrow].
  rewrite (save_profile_appends now io fs data stream session); try done.
  - by rewrite (dict_get_lookup data "year" (PStr year)).
  - intros Hreject. apply (proj2 (session_passes session) Hsession session_error).
    done.
Qed.

(** X12: the header is written only by the request that finds no file, and
    a failed write is not undone: when the first write to a new file fails
    after [written] characters, the file stays with just those characters,
    and the next successful submission appends its row behind them without
    a header; when nothing was written the file read back has no header
    row. *)
Theorem header_lost_after_failed_write now1 now2 written e fs data
    name email roll birthdate registration stream session year course :
  holds_text data
    [name; email; roll; birthdate; registration; stream; session; year; course] →
  (∀ s0 s1, session_years session = Some (s0, s1) → (s0 < s1)%Z) →
  fs !! make_filename stream year session = None →
  let file := make_filename stream year session in
  let row t := [isoformat t; name; email; roll; birthdate; registration;
                stream; session; year; course] in
  let left_behind :=
    PyStr.take written (csv_record headers +:+ csv_record (row now1)) in
  ∃ fs1 fs2,
    save_profile now1 (IoWriteFails written e) fs (JObject data)
      = (Response (ErrorJson ("Could not write CSV: " +:+ e)) 500, fs1)
    ∧ fs1 !! file = Some left_behind
    ∧ save_profile now2 IoOk fs1 (JObject data)
      = (Response (SuccessJson file) 200, fs2)
    ∧ fs2 !! file = Some (left_behind +:+ csv_record (row now2))
    ∧ (written = 0%nat →
       csv_read (left_behind +:+ csv_record (row now2)) = [row now2]).
Proof.
  intros Htext Hsession Hnew file row left_behind.
  destruct (text_payload_appends now1 (IoWriteFails written e) fs data
              _ _ _ _ _ _ _ _ _ Htext Hsession) as [Hrun1 Hrow1].
  eexists _, _. rewrite Hrun1. fold file. unfold append_row at 1.
  rewrite Hrow1, writerow_headers. fold (row now1). fold file in Hnew.
  rewrite Hnew. rewrite bool_decide_eq_false_2 by (by intros [? ?]).
  simpl negb. cbv iota. simpl default. rewrite app_nil_l. fold left_behind.
  split; [done|]. split; [by rewrite lookup_insert_eq|].
  destruct (text_payload_appends now2 IoOk (<[file := left_behind]> fs) data
              _ _ _ _ _ _ _ _ _ Htext Hsession) as [Hrun2 Hrow2].
  rewrite Hrun2. fold file. unfold append_row.
  rewrite Hrow2. fold (row now2). rewrite lookup_insert_eq.
  rewrite bool_decide_eq_true_2 by eauto. simpl negb. cbv iota.
  simpl default. rewrite app_nil_l.
  split; [done|]. split; [by rewrite lookup_insert_eq|].
  intros ->. subst left_behind. simpl PyStr.take. rewrite app_nil_l.
  rewrite <- (app_nil_r (csv_record _)). apply (csv_read_written [row now2]).
Qed.

Lemma header_lost_after_failed_write_witness :
  ∃ fs1 fs2,
    save_profile sample_time (IoWriteFails 0 "disk full") ∅ (JObject sample_data)
      = (Response (ErrorJson "Could not write CSV: disk full") 500, fs1)
    ∧ fs1 !! sample_file = Some ""
    ∧ save_profile sample_time IoOk fs1 (JObject sample_data)
      = (Response (SuccessJson sample_file) 200, fs2)
    ∧ fs2 !! sample_file = Some ("" +:+ csv_record sample_record)
    ∧ (0%nat = 0%nat →
       csv_read ("" +:+ csv_record sample_record) = [sample_record]).
Proof.
  refine (header_lost_after_failed_write sample_time sample_time 0 "disk full"
            ∅ sample_data
            "Ann, B" "ann@example.org" "12" "2000-01-01" "R-1" "B.Tech CS"
            "2023-2026" "2" "BSc" _ _ _).
  - unfold holds_text, required. repeat (constructor; [by split|]). constructor.
  - intros s0 s1 [= <- <-]. lia.
  - reflexivity.
Defined.

(** X13: over any run of requests, failing ones and failed writes included,
    no file is removed and no text is taken from a file: what a file held
    before the run is the beginning of what it holds after. *)
Theorem serve_never_truncates reqs fs g old :
  fs !! g = Some old →
  ∃ more, (serve fs reqs).2 !! g = Some (old +:+ more).
Proof.
  revert fs old. induction reqs as [|r reqs IH]; intros fs old Hg.
  - exists "". by rewrite app_nil_r.
  - simpl.
    destruct (save_profile_extends (req_now r) (req_io r) fs (req_body r) g old Hg)
      as [more1 Hstep].
    destruct (save_profile (req_now r) (req_io r) fs (req_body r)) as [o fs1].
    simpl in Hstep. destruct (IH fs1 _ Hstep) as [more2 Hrest].
    destruct (serve fs1 reqs) as [os fs2]. simpl in *.
    exists (more1 +:+ more2). by rewrite <- app_assoc.
Qed.

Lemma serve_never_truncates_witness :
  ∃ more,
    (serve (<[sample_file := "old text"]> ∅)
       [sample_request;
        {| req_now := sample_time; req_io := IoWriteFails 3 "disk full";
           req_body := JObject sample_data |};
        {| req_now := sample_time; req_io := IoOk; req_body := JOther false |}]).2
      !! sample_file
    = Some ("old text" +:+ more).
Proof. apply serve_never_truncates. reflexivity. Defined.

(** X14: requests that derive different files do not interfere: served in
    either order they get the same replies and leave the same store. *)
Theorem different_files_commute r1 r2 fs :
  (∀ f, target_file (req_body r1) = Some f → target_file (req_body r2) ≠ Some f) →
  (serve fs [r1; r2]).2 = (serve fs [r2; r1]).2
  ∧ (serve fs [r1; r2]).1 = reverse (serve fs [r2; r1]).1.
Proof.
  intros Hdiff.
  destruct (save_profile_shape (req_now r1) (req_io r1) (req_body r1))
    as (o1 & change1 & Htarget1 & Hrun1).
  destruct (save_profile_shape (req_now r2) (req_io r2) (req_body r2))
    as (o2 & change2 & Htarget2 & Hrun2).
  simpl. do 3 (rewrite ?Hrun1, ?Hrun2; simpl).
  split; [|done].
  destruct change1 as [[f1 h1]|], change2 as [[f2 h2]|]; try done.
  assert (f1 ≠ f2) as Hne.
  { intros ->. by apply (Hdiff f2); [apply (Htarget1 f2 h1)|apply (Htarget2 f2 h2)]. }
  rewrite !lookup_insert_ne by done.
  by apply insert_insert_ne.
Qed.

Lemma different_files_commute_witness :
  let other :=
    {| req_now := sample_time; req_io := IoOk;
       req_body := JObject (<["stream" := PStr "Physics"]> sample_data) |} in
  (serve ∅ [sample_request; other]).2 = (serve ∅ [other; sample_request]).2
  ∧ (serve ∅ [sample_request; other]).1
    = reverse (serve ∅ [other; sample_request]).1.
Proof.
  apply different_files_commute.
  intros f Hf. vm_compute in Hf. injection Hf as <-. vm_compute. discriminate.
Defined.

(** X15: the file a successful request names is fixed by the stream, the
    text of the year and the session alone: two successful requests that
    agree on these three name the same file, whatever their other fields,
    the time, and the store. *)
Theorem target_fixed_by_three_fields data1 data2
    now1 io1 fs1 f1 fs1' now2 io2 fs2 f2 fs2' :
  dict_get data1 "stream" = dict_get data2 "stream" →
  py_str (dict_get data1 "year") = py_str (dict_get data2 "year") →
  dict_get data1 "session" = dict_get data2 "session" →
  save_profile now1 io1 fs1 (JObject data1) = (Response (SuccessJson f1) 200, fs1') →
  save_profile now2 io2 fs2 (JObject data2) = (Response (SuccessJson f2) 200, fs2') →
  f1 = f2.
Proof.
  intros Hstream Hyear Hsession Hrun1 Hrun2.
  destruct (save_profile_success _ _ _ _ _ _ Hrun1 eq_refl)
    as (g1 & Htarget1 & [= <-] & _).
  destruct (save_profile_success _ _ _ _ _ _ Hrun2 eq_refl)
    as (g2 & Htarget2 & [= <-] & _).
  unfold target_file in *. rewrite Hstream, Hyear, Hsession in Htarget1.
  congruence.
Qed.

Lemma target_fixed_by_three_fields_witness :
  sample_file = sample_file.
Proof.
  refine (target_fixed_by_three_fields sample_data
            (<["name" := PStr "Bob"]> (<["year" := PInt 2]> sample_data))
            sample_time IoOk ∅ sample_file _ sample_time IoOk
            (<[sample_file := "x"]> ∅) sample_file _ _ _ _ _ _);
    try reflexivity; vm_compute; reflexivity.
Defined.

(** Either the request is answered before any file operation, the same
    whatever the file system does, or it reaches the append. *)
Lemma save_profile_cases now fs body :
  (∃ o, (o = Unhandled AttributeError ∨ ∃ m, o = Response (ErrorJson m) 400)
        ∧ ∀ io, save_profile now io fs body = (o, fs))
  ∨ (∃ f row, ∀ io, save_profile now io fs body = append_row io fs f row).
Proof.
  unfold save_profile.
  destruct body as [data|[]]; [|left; eexists; split; [|done]; eauto..].
  destruct (missing_fields data); [|left; eexists; split; [|done]; eauto].
  pose proof (session_check_reply (dict_get data "session")) as Hreply.
  destruct (session_check (dict_get data "session")) as [[reply|]|e0].
  { rewrite (Hreply reply eq_refl). left. eexists. split; [|done].
    right. by eexists. }
  all: destruct (make_filename_call _ _ _) as [f|e] eqn:Hcall;
    [right; by exists f, (make_row now data)|].
  all: apply make_filename_call_raises in Hcall as ->.
  all: left; eexists; split; [|done]; eauto.
Qed.

(** When the storage error is answered after the body is decoded. *)
Lemma storage_error_after_decoding now io fs body m :
  (save_profile now io fs body).1 = Response (ErrorJson m) 500 ↔
    ∃ e f, (io = IoOpenFails e ∨ ∃ written, io = IoWriteFails written e)
      ∧ m = "Could not write CSV: " +:+ e
      ∧ (save_profile now IoOk fs body).1 = Response (SuccessJson f) 200.
Proof.
  destruct (save_profile_cases now fs body)
    as [(o & Hearly & Hrun) | (f & row & Hrun)]; rewrite !Hrun; simpl.
  - split.
    + by destruct Hearly as [-> | [m' ->]].
    + intros (e & f & _ & _ & ->). by destruct Hearly as [? | [m' ?]].
  - unfold append_row. destruct io as [|e|written e]; simpl; split.
    + done.
    + by intros (e & f' & [?|[? ?]] & _).
    + intros [= <-]. exists e, f. eauto.
    + by intros (e' & f' & [[= <-]|[? ?]] & -> & _).
    + intros [= <-]. exists e, f. eauto.
    + by intros (e' & f' & [?|[? [= _ <-]]] & -> & _).
Qed.

(** X17: a successful reply tells what was submitted: the body was an
    object with no required field missing, its stream and session were
    non-empty texts, a session of two integers had its end after its
    start, the file system worked, and the file named is the one derived
    from the stream, the text of the year and the session. *)
Theorem success_inversion now io fs body f fs' :
  save_profile now io fs body = (Response (SuccessJson f) 200, fs') →
  ∃ data stream session,
    body = JObject data ∧ io = IoOk ∧ missing_fields data = []
    ∧ data !! "stream" = Some (PStr stream) ∧ stream ≠ ""
    ∧ data !! "session" = Some (PStr session) ∧ session ≠ ""
    ∧ (∀ s0 s1, session_years session = Some (s0, s1) → (s0 < s1)%Z)
    ∧ f = make_filename stream (py_str (dict_get data "year")) session.
Proof.
  intros Hrun.
  assert (∀ (data : gmap string pyval) k s,
    missing_fields data = [] → k ∈ required → dict_get data k = PStr s →
    data !! k = Some (PStr s) ∧ s ≠ "") as Htext.
  { intros data k s Hfull Hk Hget. split.
    - unfold dict_get in Hget. destruct (data !! k); simpl in Hget; congruence.
    - intros ->. assert (k ∈ missing_fields data) as Hin.
      { apply missing_fields_spec. by rewrite Hget. }
      rewrite Hfull in Hin. by apply not_elem_of_nil in Hin. }
  unfold save_profile in Hrun.
  destruct body as [data|[]]; [|done..].
  destruct (missing_fields data) eqn:Hfull; [|done].
  assert (∃ stream session,
    dict_get data "stream" = PStr stream
    ∧ dict_get data "session" = PStr session
    ∧ io = IoOk
    ∧ f = make_filename stream (py_str (dict_get data "year")) session
    ∧ ∀ reply, session_check (dict_get data "session") ≠ Ok (Some reply))
    as (stream & session & Hstream & Hsession & -> & -> & Hpass).
  { pose proof (session_check_reply (dict_get data "session")) as Hreply.
    destruct (session_check (dict_get data "session")) as [[reply|]|e0];
      [by rewrite (Hreply reply eq_refl) in Hrun|..].
    all: unfold make_filename_call, as_str in Hrun.
    all: destruct (dict_get data "stream") as [| | |stream|]; try done.
    all: destruct (dict_get data "session") as [| | |session|]; try done.
    all: simpl in Hrun; unfold append_row in Hrun.
    all: destruct io; try done.
    all: injection Hrun as <- _; by exists stream, session. }
  exists data, stream, session.
  destruct (Htext data "stream" stream Hfull) as [? ?];
    [unfold required; repeat constructor|done|].
  destruct (Htext data "session" session Hfull) as [? ?];
    [unfold required; repeat constructor|done|].
  rewrite Hsession in Hpass.
  pose proof (proj1 (session_passes session) Hpass). done.
Qed.

Lemma success_inversion_witness :
  ∃ data stream session,
    JObject sample_data = JObject data ∧ IoOk = IoOk ∧ missing_fields data = []
    ∧ data !! "stream" = Some (PStr stream) ∧ stream ≠ ""
    ∧ data !! "session" = Some (PStr session) ∧ session ≠ ""
    ∧ (∀ s0 s1, session_years session = Some (s0, s1) → (s0 < s1)%Z)
    ∧ sample_file = make_filename stream (py_str (dict_get data "year")) session.
Proof.
  refine (success_inversion sample_time IoOk ∅ (JObject sample_data) sample_file
            (save_profile sample_time IoOk ∅ (JObject sample_data)).2 _).
  vm_compute. reflexivity.
Defined.

(** When a validation error is answered after the body is decoded. *)
Lemma validation_error_after_decoding now io fs body m :
  (save_profile now io fs body).1 = Response (ErrorJson m) 400 ↔
    ∃ data,
      (body = JObject data ∨ (body = JOther false ∧ data = ∅))
      ∧ ((missing_fields data ≠ []
          ∧ m = "Missing fields: " +:+ PyStr.join ", " (missing_fields data))
         ∨ (missing_fields data = []
            ∧ m = "Session end year must be after start year."
            ∧ ∃ s s0 s1, dict_get data "session" = PStr s
                ∧ session_years s = Some (s0, s1) ∧ (s1 ≤ s0)%Z)).
Proof.
  assert (∀ data,
    (save_profile now io fs (JObject data)).1 = Response (ErrorJson m) 400 ↔
    (missing_fields data ≠ []
     ∧ m = "Missing fields: " +:+ PyStr.join ", " (missing_fields data))
    ∨ (missing_fields data = []
       ∧ m = "Session end year must be after start year."
       ∧ ∃ s s0 s1, dict_get data "session" = PStr s
           ∧ session_years s = Some (s0, s1) ∧ (s1 ≤ s0)%Z)) as Hobject.
  { intros data. destruct (missing_fields data) as [|k l] eqn:Hfull.
    2: { rewrite save_profile_missing by by rewrite Hfull. rewrite Hfull.
         simpl. split; [intros [= <-]; by left|].
         by intros [[_ ->]|[? _]]. }
    rewrite (save_profile_complete _ _ _ _ Hfull).
    assert (∀ f row, (append_row io fs f row).1 ≠ Response (ErrorJson m) 400)
      as Happend by (intros f row; unfold append_row; by destruct io).
    destruct (dict_get data "session") as [| | |s|] eqn:Hsession.
    1-3, 5: (simpl; destruct (make_filename_call _ _ _); simpl;
             (split; [by (intros ?%Happend || done)|]);
             by intros [[? _]|(_ & _ & s & s0 & s1 & ? & _)]).
    pose proof (session_check_rejects s) as Hrejects.
    pose proof (session_check_reply (PStr s)) as Hreply.
    destruct (session_check (PStr s)) as [[reply|]|e0].
    - rewrite (Hreply reply eq_refl). simpl. split.
      + intros [= <-]. right. do 2 (split; [done|]).
        destruct (proj1 Hrejects) as (s0 & s1 & ? & ?); [by eauto|].
        by exists s, s0, s1.
      + by intros [[? _]|(_ & -> & _)].
    - destruct (make_filename_call _ _ _); simpl;
        (split; [by (intros ?%Happend || done)|]);
        intros [[? _]|(_ & _ & s' & s0 & s1 & [= <-] & Hyears & Hle)]; try done;
        by destruct (proj2 Hrejects) as [reply ?]; [eauto|].
    - destruct (make_filename_call _ _ _); simpl;
        (split; [by (intros ?%Happend || done)|]);
        intros [[? _]|(_ & _ & s' & s0 & s1 & [= <-] & Hyears & Hle)]; try done;
        by destruct (proj2 Hrejects) as [reply ?]; [eauto|]. }
  destruct body as [data|[]].
  - rewrite Hobject. split.
    + intros Hcase. exists data. by auto.
    + by intros (data' & [[= <-]|[? _]] & Hcase).
  - split; [done|]. by intros (data & [?|[? _]] & _).
  - change (save_profile now io fs (JOther false))
      with (save_profile now io fs (JObject ∅)).
    rewrite Hobject. split.
    + intros Hcase. exists ∅. by auto.
    + by intros (data' & [?|[_ ->]] & Hcase).
Qed.

(** * The handler with its first statement *)

(** X10: the handler ends in one of four ways: an exception leaves it, the
    one [request.get_json()] raised or else AttributeError; or it returns a
    400 error; or a 500 error, only when the open or a write of the block
    raised; or the 200 success that names the derived file, only when the
    block ran to its end.  After an exception and after a 400 the record
    store is as it was. *)
Theorem reply_classification now io fs got :
  (∃ e, (save_profile_from_request now io fs got).1 = Unhandled e
        ∧ (save_profile_from_request now io fs got).2 = fs
        ∧ (got = Raise e ∨ e = AttributeError))
  ∨ (∃ m, (save_profile_from_request now io fs got).1 = Response (ErrorJson m) 400
          ∧ (save_profile_from_request now io fs got).2 = fs)
  ∨ (∃ m, (save_profile_from_request now io fs got).1 = Response (ErrorJson m) 500
          ∧ io ≠ IoOk)
  ∨ (∃ f body,
       (save_profile_from_request now io fs got).1 = Response (SuccessJson f) 200
       ∧ io = IoOk ∧ got = Ok body ∧ target_file body = Some f).
Proof.
  destruct got as [body|e]; simpl.
  - destruct (reply_cases_after_decoding now io fs body)
      as [[? ?]|[(m & ? & ?)|[(m & ? & ?)|(f & ? & ? & ?)]]].
    + left. exists AttributeError. auto.
    + right; left. eauto.
    + right; right; left. eauto.
    + right; right; right. exists f, body. auto.
  - left. exists e. auto.
Qed.

(** X11: an exception leaves the handler exactly when
    [request.get_json()] raises it, or when the decoded body is a truthy
    value that is no object, or when no required field is missing and the
    session is not a text, or the stream is not a text while the session
    text passes or skips the range check; in all but the first case the
    exception is AttributeError. *)
Theorem unhandled_iff now io fs got e :
  (save_profile_from_request now io fs got).1 = Unhandled e ↔
    got = Raise e
    ∨ ∃ body, got = Ok body ∧ e = AttributeError
        ∧ (body = JOther true
           ∨ ∃ data, body = JObject data ∧ missing_fields data = []
               ∧ (is_text (dict_get data "session") = false
                  ∨ ∃ s, dict_get data "session" = PStr s
                      ∧ is_text (dict_get data "stream") = false
                      ∧ ∀ s0 s1, session_years s = Some (s0, s1) → (s0 < s1)%Z)).
Proof.
  destruct got as [body|e']; simpl.
  - rewrite unhandled_after_decoding. split.
    + intros [-> Hcase]. right. exists body. auto.
    + intros [?|(body' & [= <-] & -> & Hcase)]; [done|auto].
  - split.
    + intros [= ->]. by left.
    + intros [[= ->]|(body & ? & _)]; done.
Qed.

(** X16: the handler returns the 500 storage error exactly when the open
    or a write of the block raises on a request that would succeed with a
    block that runs to its end, and the message is the prefix Could not
    write CSV: and the text of the exception; a request that fails a
    validation, and one whose body cannot be decoded, never gets there. *)
Theorem storage_error_iff now io fs got m :
  (save_profile_from_request now io fs got).1 = Response (ErrorJson m) 500 ↔
    ∃ body e f,
      got = Ok body
      ∧ (io = IoOpenFails e ∨ ∃ written, io = IoWriteFails written e)
      ∧ m = "Could not write CSV: " +:+ e
      ∧ (save_profile now IoOk fs body).1 = Response (SuccessJson f) 200.
Proof.
  destruct got as [body|e']; simpl.
  - rewrite storage_error_after_decoding. split.
    + intros (e & f & ? & ? & ?). exists body, e, f. auto.
    + intros (body' & e & f & [= <-] & ? & ? & ?). exists e, f. auto.
  - split; [done|]. by intros (body & e & f & ? & _).
Qed.

(** X18: the handler returns a 400 error in exactly two cases: a required
    field is missing or falsy in the decoded body (a decoded body that is
    falsy counts as the empty object), with the message that lists the
    missing fields in the order of the columns; or no field is missing and
    the session text is two integers with the end not after the start.  A
    body that [request.get_json()] refuses never gets there: the exception
    leaves the handler. *)
Theorem validation_error_iff now io fs got m :
  (save_profile_from_request now io fs got).1 = Response (ErrorJson m) 400 ↔
    ∃ body data,
      got = Ok body
      ∧ (body = JObject data ∨ (body = JOther false ∧ data = ∅))
      ∧ ((missing_fields data ≠ []
          ∧ m = "Missing fields: " +:+ PyStr.join ", " (missing_fields data))
         ∨ (missing_fields data = []
            ∧ m = "Session end year must be after start year."
            ∧ ∃ s s0 s1, dict_get data "session" = PStr s
                ∧ session_years s = Some (s0, s1) ∧ (s1 ≤ s0)%Z)).
Proof.
  destruct got as [body|e']; simpl.
  - rewrite validation_error_after_decoding. split.
    + intros (data & ? & ?). exists body, data. auto.
    + intros (body' & data & [= <-] & ? & ?). exists data. auto.
  - split; [done|]. by intros (body & data & ? & _).
Qed.

(** * Reading a file back with the reader's field-size limit *)

Lemma len_zero_padded w n rest :
  PyStr.len (zero_padded w n rest) = (N.of_nat w + PyStr.len rest)%N.
Proof.
  revert n rest. induction w as [|w IH]; intros n rest; [done|].
  cbn [zero_padded]. rewrite IH. cbn [PyStr.len]. lia.
Qed.

Lemma len_isoformat now : (PyStr.len (isoformat now) ≤ 26)%N.
Proof.
  unfold isoformat.
  repeat (rewrite len_zero_padded; cbn [PyStr.len]).
  destruct (dt_microsecond now =? 0)%N; cbn [PyStr.len];
    rewrite ?len_zero_padded; cbn [PyStr.len]; lia.
Qed.

Lemma len_repeat c n : PyStr.len (PyStr.repeat c n) = n.
Proof.
  unfold PyStr.repeat. induction n as [|n IH] using N.peano_ind; [done|].
  rewrite N.iter_succ. cbn [PyStr.len]. by rewrite IH.
Qed.

Lemma reader_default_some text rows :
  csv_reader_default text = Some rows ↔
    csv_read text = rows
    ∧ forallb (forallb (λ f, (PyStr.len f <=? field_size_limit)%N)) rows = true.
Proof.
  unfold csv_reader_default.
  destruct (forallb _ (csv_read text)) eqn:Hfit; split.
  - by intros [= <-].
  - by intros [-> _].
  - done.
  - intros [<- ?]. congruence.
Qed.

Lemma row_within_limit now values :
  Forall (λ v, (PyStr.len v ≤ field_size_limit)%N) values →
  forallb (λ f, (PyStr.len f <=? field_size_limit)%N) (isoformat now :: values)
    = true.
Proof.
  intros Hfit. cbn [forallb]. apply andb_true_iff. split.
  - apply N.leb_le. pose proof (len_isoformat now). unfold field_size_limit. lia.
  - apply forallb_forall. intros v Hv. apply N.leb_le.
    by apply (proj1 (Forall_forall _ _) Hfit), list_elem_of_In.
Qed.

(** C8 (amended): for a request whose nine fields are non-empty texts of at
    most 131072 characters (the field-size limit of the csv reader), whose
    session passes the range check or skips it, and whose write succeeds,
    where the file did not exist or its earlier text read back without
    error and ended with a record, the file read back ends with one row:
    the nine submitted values, unchanged and in the order name, email,
    roll, birthdate, registration, stream, session, year, course, behind
    one leading time stamp that parses back to the time of the clock. *)
Theorem row_read_back now fs data
    name email roll birthdate registration stream session year course
    rows_before :
  valid_datetime now = true →
  holds_text data
    [name; email; roll; birthdate; registration; stream; session; year; course] →
  (∀ s0 s1, session_years session = Some (s0, s1) → (s0 < s1)%Z) →
  Forall (λ v, (PyStr.len v ≤ field_size_limit)%N)
    [name; email; roll; birthdate; registration; stream; session; year; course] →
  match fs !! make_filename stream year session with
  | None => rows_before = [headers]
  | Some old =>
      csv_reader_default old = Some rows_before
      ∧ state (reader_run reader_init old) = StartRecord
  end →
  ∃ fs' text,
    save_profile now IoOk fs (JObject data)
      = (Response (SuccessJson (make_filename stream year session)) 200, fs')
    ∧ fs' !! make_filename stream year session = Some text
    ∧ csv_reader_default text
      = Some (rows_before
              ++ [[isoformat now; name; email; roll; birthdate; registration;
                   stream; session; year; course]])
    ∧ fromisoformat (isoformat now) = Some now.
Proof.
  intros Hnow Htext Hsession Hfit Hbefore.
  destruct (text_payload_appends now IoOk fs data _ _ _ _ _ _ _ _ _
              Htext Hsession) as [Hrun Hrow].
  pose proof (row_within_limit now _ Hfit) as Hrowfit.
  set (file := make_filename stream year session) in *.
  set (row := [isoformat now; name; email; roll; birthdate; registration;
               stream; session; year; course]) in *.
  clearbody row file.
  assert (csv_record row = PyStr.concat (csv_record <$> [row])) as Hone.
  { simpl. by rewrite app_nil_r. }
  rewrite Hrun. unfold append_row. rewrite Hrow, writerow_headers.
  eexists _, _. split; [done|]. rewrite lookup_insert_eq.
  split; [done|]. split; [|by apply fromisoformat_isoformat].
  apply reader_default_some.
  destruct (fs !! file) as [old|] eqn:Hfile.
  - destruct Hbefore as [[Hold Holdfit]%reader_default_some Hend].
    rewrite bool_decide_eq_true_2 by eauto. simpl. rewrite app_nil_l, Hone.
    rewrite (csv_read_appended old [row] Hend), Hold. split; [done|].
    rewrite forallb_app, Holdfit. cbn [forallb]. by rewrite Hrowfit.
  - subst rows_before.
    rewrite bool_decide_eq_false_2 by (by intros [? ?]). simpl.
    rewrite app_nil_l, Hone.
    change (csv_record headers +:+ PyStr.concat (csv_record <$> [row]))
      with (PyStr.concat (csv_record <$> [headers; row])).
    rewrite csv_read_written. split; [done|].
    change ([headers] ++ [row]) with [headers; row].
    cbn [forallb]. rewrite Hrowfit. by vm_compute.
Qed.

Lemma row_read_back_witness :
  ∃ fs' text,
    save_profile sample_time IoOk ∅ (JObject sample_data)
      = (Response (SuccessJson sample_file) 200, fs')
    ∧ fs' !! sample_file = Some text
    ∧ csv_reader_default text = Some ([headers] ++ [sample_record])
    ∧ fromisoformat (isoformat sample_time) = Some sample_time.
Proof.
  refine (row_read_back sample_time ∅ sample_data
            "Ann, B" "ann@example.org" "12" "2000-01-01" "R-1" "B.Tech CS"
            "2023-2026" "2" "BSc" [headers] _ _ _ _ _).
  - reflexivity.
  - unfold holds_text, required. repeat (constructor; [by split|]). constructor.
  - intros s0 s1 [= <- <-]. lia.
  - repeat (constructor; [apply N.leb_le; vm_compute; reflexivity|]). constructor.
  - reflexivity.
Defined.

Lemma long_name_len : PyStr.len long_name = 131073%N.
Proof. apply len_repeat. Qed.

Lemma long_data_text :
  holds_text long_data
    [long_name; "ann@example.org"; "12"; "2000-01-01"; "R-1"; "B.Tech CS";
     "2023-2026"; "2"; "BSc"].
Proof.
  unfold holds_text, required, long_data. constructor.
  - split; [apply lookup_insert_eq|].
    intros Hempty. pose proof long_name_len as Hlen.
    rewrite Hempty in Hlen. done.
  - repeat (constructor;
            [split; [rewrite lookup_insert_ne by done; reflexivity | done]|]).
    constructor.
Qed.

(** A name longer than the limit is written, and cannot be read back. *)
Lemma long_name_not_read_back now fs data
    name email roll birthdate registration stream session year course :
  holds_text data
    [name; email; roll; birthdate; registration; stream; session; year; course] →
  (∀ s0 s1, session_years session = Some (s0, s1) → (s0 < s1)%Z) →
  fs !! make_filename stream year session = None →
  (field_size_limit < PyStr.len name)%N →
  ∃ fs' text,
    save_profile now IoOk fs (JObject data)
      = (Response (SuccessJson (make_filename stream year session)) 200, fs')
    ∧ fs' !! make_filename stream year session = Some text
    ∧ csv_reader_default text = None.
Proof.
  intros Htext Hsession Hnew Hlong.
  destruct (text_payload_appends now IoOk fs data _ _ _ _ _ _ _ _ _
              Htext Hsession) as [Hrun Hrow].
  set (file := make_filename stream year session) in *. clearbody file.
  rewrite Hrun. unfold append_row. rewrite Hrow, writerow_headers, Hnew.
  rewrite bool_decide_eq_false_2 by (by intros [? ?]).
  simpl negb. cbv iota. simpl default. rewrite app_nil_l.
  eexists _, _. split; [done|]. rewrite lookup_insert_eq. split; [done|].
  set (row := isoformat now :: name :: _).
  assert (csv_record headers +:+ csv_record row
          = PyStr.concat (csv_record <$> [headers; row])) as ->.
  { simpl. by rewrite app_nil_r. }
  unfold csv_reader_default. rewrite csv_read_written.
  subst row. cbn [forallb].
  apply N.leb_gt in Hlong. rewrite Hlong. by rewrite !andb_false_r.
Qed.

(** C8 as the spec words it fails.  A valid request whose name has 131073
    characters is answered with the success reply, and reading its file
    back raises the reader's error; and a valid request to a file whose
    earlier text ends inside a quoted field is answered with the success
    reply, and the file read back holds one record that is not the
    submitted row. *)
Lemma row_round_trip_as_worded_fails :
  (∃ fs' text,
     save_profile sample_time IoOk ∅ (JObject long_data)
       = (Response (SuccessJson sample_file) 200, fs')
     ∧ fs' !! sample_file = Some text
     ∧ csv_reader_default text = None)
  ∧ (∃ fs' text garbled,
       save_profile sample_time IoOk (<[sample_file := String QUOTE "x"]> ∅)
         (JObject sample_data)
         = (Response (SuccessJson sample_file) 200, fs')
       ∧ fs' !! sample_file = Some text
       ∧ csv_reader_default text = Some [garbled]
       ∧ garbled ≠ sample_record).
Proof.
  split.
  - change sample_file with (make_filename "B.Tech CS" "2" "2023-2026").
    apply (long_name_not_read_back sample_time ∅ long_data long_name
             "ann@example.org" "12" "2000-01-01" "R-1" "B.Tech CS"
             "2023-2026" "2" "BSc").
    + apply long_data_text.
    + intros s0 s1 [= <- <-]. lia.
    + apply lookup_empty.
    + rewrite long_name_len. done.
  - eexists _, _, _. split; [vm_compute; reflexivity|].
    split; [vm_compute; reflexivity|]. split; [vm_compute; reflexivity|].
    vm_compute. intros Heq. discriminate Heq.
Qed.
